(** * SPARCStools [stitch.py]: a shallow embedding and its properties

    The module [sparcstools.stitch] is glue code around external libraries
    (ashlar for registration, PIL/tifffile for images, yattag for XML,
    ome-zarr for chunked output).  The embedding keeps the control flow,
    the string building, the exceptions and the order of the side effects
    of the Python functions; the external libraries appear as fields of an
    environment record or as events of a trace.

    Layout: Python primitives, exceptions and the effect monad, the file
    system, the array model, then one part per source function, then the
    theorems. *)

From Stdlib Require Import ZArith String Ascii List Lia Bool DecimalString QArith.
From Stdlib Require OrderedTypeEx Sorted.
From stdpp Require Import base gmap strings list fin_maps.
Import ListNotations.

Local Open Scope string_scope.
Local Open Scope list_scope.

(* ===================================================================== *)
(** ** Python string primitives *)
(* ===================================================================== *)

Module PyStr.

(** Characters that cannot be typed inside a string literal. *)
Definition dq : string := String "034"%char EmptyString.
Definition cr : string := String "013"%char EmptyString.
Definition lf : string := String "010"%char EmptyString.
Definition crlf : string := cr +:+ lf.

(** [s.startswith(p)] *)
Fixpoint startswith (p s : string) : bool :=
  match p with
  | EmptyString => true
  | String a p' =>
      match s with
      | EmptyString => false
      | String b s' => Ascii.eqb a b && startswith p' s'
      end
  end.

(** [sub in s] on strings: substring test. *)
Fixpoint contains (sub s : string) : bool :=
  startswith sub s ||
  match s with
  | EmptyString => false
  | String _ s' => contains sub s'
  end.

(** [s.endswith(suf)] *)
Definition endswith (suf s : string) : bool :=
  let n := String.length s in
  let k := String.length suf in
  (k <=? n)%nat && String.eqb (substring (n - k) k s) suf.

(** [s[0:n]] *)
Definition take (n : nat) (s : string) : string := substring 0 n s.

(** [s.replace(old, new)] for a non-empty [old]: non-overlapping
    occurrences, left to right.  [skip] counts the characters of a
    matched occurrence that are still to be dropped. *)
Fixpoint replace_go (old new : string) (skip : nat) (s : string) : string :=
  match s with
  | EmptyString => EmptyString
  | String c s' =>
      match skip with
      | S k => replace_go old new k s'
      | O =>
          if startswith old s
          then new +:+ replace_go old new (String.length old - 1) s'
          else String c (replace_go old new 0 s')
      end
  end.

(** With an empty [old] Python inserts [new] before every character and
    at the end. *)
Fixpoint intersperse (new s : string) : string :=
  match s with
  | EmptyString => new
  | String c s' => new +:+ String c (intersperse new s')
  end.

Definition replace (old new s : string) : string :=
  match old with
  | EmptyString => intersperse new s
  | _ => replace_go old new 0 s
  end.

(** [str(n)] for an integer. *)
Definition str_of_Z (z : Z) : string := NilZero.string_of_int (Z.to_int z).
Definition str_of_nat (n : nat) : string := str_of_Z (Z.of_nat n).

(** [s.zfill(width)]: zeros go after a leading sign. *)
Fixpoint zeros (n : nat) : string :=
  match n with O => EmptyString | S k => String "0" (zeros k) end.

Definition zfill (width : nat) (s : string) : string :=
  let pad := zeros (width - String.length s) in
  match s with
  | String "-" r => String "-" (pad +:+ r)
  | String "+" r => String "+" (pad +:+ r)
  | _ => pad +:+ s
  end.

(** [sep.join(l)] *)
Fixpoint join (sep : string) (l : list string) : string :=
  match l with
  | [] => EmptyString
  | [x] => x
  | x :: r => x +:+ sep +:+ join sep r
  end.

(** [os.path.join(a, b)] on a POSIX system, two components. *)
Definition path_join (a b : string) : string :=
  if startswith "/" b then b
  else if String.eqb a "" || endswith "/" a then a +:+ b
  else a +:+ "/" +:+ b.

End PyStr.

(* ===================================================================== *)
(** ** Python list and dict primitives *)
(* ===================================================================== *)

(** Python exceptions that the modelled functions can raise. *)
Inductive exn : Type :=
| ValueError (msg : string)
| AttributeError (msg : string)
| KeyError
| IndexError
| ZeroDivisionError
| FileNotFoundError (path : string)
| NotADirectoryError (path : string)
| SystemExit (msg : string).

Inductive outcome (A : Type) : Type :=
| Ok (a : A)
| Raise (e : exn).
Arguments Ok {A} a.
Arguments Raise {A} e.

Definition is_ok {A} (o : outcome A) : bool :=
  match o with Ok _ => true | Raise _ => false end.

Module PyList.

(** [enumerate(l)] *)
Fixpoint enumerate_from {A} (i : nat) (l : list A) : list (nat * A) :=
  match l with
  | [] => []
  | x :: r => (i, x) :: enumerate_from (S i) r
  end.
Definition enumerate {A} (l : list A) : list (nat * A) := enumerate_from 0 l.

(** [x in l] for a list of strings. *)
Definition mem (x : string) (l : list string) : bool :=
  existsb (String.eqb x) l.

(** [l.index(x)]: position of the first occurrence, [ValueError] when
    there is none. The message names the missing value; CPython prints
    that value through [repr] (with quotes) in some versions and a fixed
    text in others, so only the exception class and the value named are
    meant to be read off the message. *)
Fixpoint index_from (i : Z) (x : string) (l : list string) : outcome Z :=
  match l with
  | [] => Raise (ValueError (x +:+ " is not in list"))
  | y :: r => if String.eqb y x then Ok i else index_from (i + 1) x r
  end.
Definition index (x : string) (l : list string) : outcome Z := index_from 0 x l.

(** [l[i]] for [0 <= i]. *)
Definition getitem {A} (l : list A) (i : nat) : outcome A :=
  match l !! i with
  | Some x => Ok x
  | None => Raise IndexError
  end.

End PyList.

(** A Python dict keeps insertion order: an association list. *)
Module PyDict.

Definition keys {K V} (d : list (K * V)) : list K := map fst d.
Definition values {K V} (d : list (K * V)) : list V := map snd d.

(** [d[k]] with integer keys *)
Fixpoint getitem {V} (d : list (Z * V)) (k : Z) : outcome V :=
  match d with
  | [] => Raise KeyError
  | (k', v) :: r => if Z.eqb k' k then Ok v else getitem r k
  end.

(** [d.values().index(x)]: a [dict_values] view has no method [index];
    the attribute lookup raises before anything is searched. *)
Definition values_view_index {K} (d : list (K * string)) (x : string) : outcome Z :=
  Raise (AttributeError "'dict_values' object has no attribute 'index'").

End PyDict.

(* ===================================================================== *)
(** ** Arrays *)
(* ===================================================================== *)

(** A 2D plane is a list of rows; the assembled mosaic is a list of planes,
    indexed (channel, row, column).  Pixels are [uint16]. *)
Definition plane : Type := list (list Z).
Definition ndarray3 : Type := list plane.

Module Np.

Definition to_uint16 (z : Z) : Z := (z mod 65536)%Z.

Definition astype_uint16 (p : plane) : plane := map (map to_uint16) p.

(** [tempmmap.array((n, x, y), dtype=np.uint16)] *)
Definition zeros (n x y : nat) : ndarray3 :=
  repeat (repeat (repeat 0%Z y) x) n.

Definition plane_has_shape (x y : nat) (p : plane) : bool :=
  (length p =? x)%nat && forallb (fun r => (length r =? y)%nat) p.

Definition has_shape (n x y : nat) (a : ndarray3) : bool :=
  (length a =? n)%nat && forallb (plane_has_shape x y) a.

(** [a[i, :, :] = p] on an array of shape [(n, x, y)]: the index must
    be in range and the value must fill the plane; the stored pixels
    are cast to the array's dtype. *)
Definition setitem_plane (x y : nat) (a : ndarray3) (i : nat) (p : plane)
  : outcome ndarray3 :=
  if (length a <=? i)%nat then Raise IndexError
  else if plane_has_shape x y p then Ok (<[i := astype_uint16 p]> a)
  else Raise (ValueError "could not broadcast input array").

(** One bound of [slice(start, stop)] applied to an axis of length
    [len]: negative values count from the end, everything is clamped. *)
Definition slice_bound (len i : Z) : Z :=
  if (i <? 0)%Z then Z.max (i + len) 0 else Z.min i len.

(** [l[start:stop]] *)
Definition slice {A} (start stop : Z) (l : list A) : list A :=
  let len := Z.of_nat (length l) in
  let s := slice_bound len start in
  let e := slice_bound len stop in
  firstn (Z.to_nat (e - s)) (skipn (Z.to_nat s) l).

(** [a[:, r0:r1, c0:c1]] *)
Definition slice3 (r0 r1 c0 c1 : Z) (a : ndarray3) : ndarray3 :=
  map (fun p => map (slice c0 c1) (slice r0 r1 p)) a.

(** [int(np.ceil(a / b))] for Python integers [a], [b]; the float
    quotient is exact enough for the ceiling as long as both are below
    2^26, far above any job count. *)
Definition ceil_div (a b : Z) : outcome Z :=
  if (b =? 0)%Z then Raise ZeroDivisionError
  else Ok (- ((- a) / b))%Z.

(** [np.unique] on a list of strings: sorted, without repetition. *)
Fixpoint insert_unique (x : string) (l : list string) : list string :=
  match l with
  | [] => [x]
  | y :: r =>
      match String.compare x y with
      | Lt => x :: l
      | Eq => l
      | Gt => y :: insert_unique x r
      end
  end.

Definition unique (l : list string) : list string :=
  fold_right insert_unique [] l.

End Np.

(* ===================================================================== *)
(** ** File system, events and the effect monad *)
(* ===================================================================== *)

(** Percentile bounds are Python floats that this module only passes on. *)
Definition percentiles : Type := (Q * Q)%type.

Inductive rescale_mode : Type :=
| RescaleOff          (* False *)
| RescaleOn           (* True *)
| RescalePartial      (* "partial" *)
| RescaleFullImage.   (* "full_image" *)

(** [rescale_range]: one pair, or a dict from channel name to pair.  After
    resolution against the channel map the dict is keyed by channel id. *)
Inductive range_spec : Type :=
| RangeTuple (r : percentiles)
| RangeDict (d : list (string * percentiles)).

(** What the reader holds in [slide.rescale_range]. *)
Inductive reader_range : Type :=
| AsGiven (r : range_spec)
| ByChannelId (d : list (Z * percentiles)).

(** The attributes of the [FilePatternReaderRescale] object that
    [stitch.py] sets. *)
Record reader : Type := mk_reader {
  rd_path : string;
  rd_pattern : string;
  rd_overlap : Q;
  rd_rescale_range : reader_range;
  rd_do_rescale : rescale_mode;
  rd_WGAchannel : option string;
  rd_no_rescale_channel : option (list Z)
}.

(** Entries of an OME-Zarr directory store. *)
Inductive zentry : Type :=
| ZGroup
| ZAttrs (name : string) (channels : list (string * string * bool))
| ZChunk (data : list Z).

Inductive content : Type :=
| CText (s : string)
| CTiff (p : plane)
| CPositions
| CTable (index_name : string) (columns : list string) (rows : list (list string))
| COmeTiff (channels : list Z)
| CThumbnail (channel_id : Z)
| CRescaledTile (source : string).

Inductive node : Type :=
| File (c : content)
| Dir (entries : gmap string zentry).

(** External calls and writes, in the order they happen. *)
Inductive event : Type :=
| EReadSlide (input_dir pattern : string)
| EAxisFlip
| EThumbnail (channel_id : Z)
| EAlign (slide : reader) (channel_id : Z) (filter_sigma max_shift : Z)
| EPlotQC (plot : string) (outdir : string)
| ETempDir (name : string)
| EAssemble (channel : Z)
| EMakedirs (path : string)
| EWrite (path : string)
| ERmtree (path : string)
| ECleanupTemp (name : string).

Record world : Type := mk_world {
  fs : gmap string node;
  trace : list event;
  TEMP_DIR_NAME : option string     (* the module-level global *)
}.

Definition M (A : Type) : Type := world -> outcome A * world.

Definition ret {A} (a : A) : M A := fun w => (Ok a, w).

Definition bind {A B} (c : M A) (k : A -> M B) : M B :=
  fun w =>
    match c w with
    | (Ok a, w') => k a w'
    | (Raise e, w') => (Raise e, w')
    end.

Definition raise {A} (e : exn) : M A := fun w => (Raise e, w).

Definition lift {A} (o : outcome A) : M A := fun w => (o, w).

Notation "'let*' x ':=' c 'in' k" := (bind c (fun x => k))
  (at level 10, x name, c at level 100, k at level 200).
Notation "'do' c 'then' k" := (bind c (fun _ => k))
  (at level 10, c at level 100, k at level 200).

Definition emit (e : event) : M unit :=
  fun w => (Ok tt, mk_world (fs w) (trace w ++ [e]) (TEMP_DIR_NAME w)).

(** [for x in l: body(x)] *)
Fixpoint for_each {A} (l : list A) (body : A -> M unit) : M unit :=
  match l with
  | [] => ret tt
  | x :: r => do body x then for_each r body
  end.

(** [[f(x) for x in l]] for an [f] that may raise. *)
Fixpoint map_outcome {A B} (f : A -> outcome B) (l : list A) : outcome (list B) :=
  match l with
  | [] => Ok []
  | x :: r =>
      match f x with
      | Raise e => Raise e
      | Ok y =>
          match map_outcome f r with
          | Raise e => Raise e
          | Ok ys => Ok (y :: ys)
          end
      end
  end.

Module Fs.

(** [k] lies strictly below directory [p]. *)
Definition under (p k : string) : bool := PyStr.startswith (p +:+ "/") k.

Definition keep (p : string) (kv : string * node) : Prop :=
  kv.1 ≠ p ∧ under p kv.1 = false.

#[global] Instance keep_dec p kv : Decision (keep p kv).
Proof. unfold keep. apply _. Defined.

Definition isdir (p : string) : M bool :=
  fun w => (Ok match fs w !! p with Some (Dir _) => true | _ => false end, w).

Definition exists_ (p : string) : M bool :=
  fun w => (Ok match fs w !! p with Some _ => true | None => false end, w).

(** [os.makedirs(p)] after the source has checked that [p] is absent. *)
Definition makedirs (p : string) : M unit :=
  fun w => (Ok tt, mk_world (<[p := Dir ∅]> (fs w)) (trace w ++ [EMakedirs p])
                            (TEMP_DIR_NAME w)).

(** Writing a regular file replaces what was at the path. *)
Definition write_file (p : string) (c : content) : M unit :=
  fun w => (Ok tt, mk_world (<[p := File c]> (fs w)) (trace w ++ [EWrite p])
                            (TEMP_DIR_NAME w)).

(** [shutil.rmtree(p)]: the directory and everything below it. *)
Definition rmtree (p : string) : M unit :=
  fun w => (Ok tt, mk_world (filter (keep p) (fs w)) (trace w ++ [ERmtree p])
                            (TEMP_DIR_NAME w)).

(** Writing [entries] into the directory store at [p]: the store is
    created when absent and otherwise kept, new entries replacing old
    ones of the same key.  A regular file at [p] is an error. *)
Definition store_update (p : string) (entries : gmap string zentry) : M unit :=
  fun w =>
    match fs w !! p with
    | Some (File _) => (Raise (NotADirectoryError p), w)
    | Some (Dir old) =>
        (Ok tt, mk_world (<[p := Dir (entries ∪ old)]> (fs w))
                         (trace w ++ [EWrite p]) (TEMP_DIR_NAME w))
    | None =>
        (Ok tt, mk_world (<[p := Dir entries]> (fs w))
                         (trace w ++ [EWrite p]) (TEMP_DIR_NAME w))
    end.

End Fs.

(* ===================================================================== *)
(** ** The yattag document builder *)
(* ===================================================================== *)

(** [yattag] is an external library.  A document built with [tag], [text]
    and [asis] is a forest; [getvalue] prints it without white space and
    [indent] (called here with its default [indent_text = False]) puts
    every element on a line of its own, one indentation unit per nesting
    level, and leaves an element that directly holds text on one line. *)
Module Yattag.

#[warnings="-register-all"]
Inductive xml : Type :=
| Asis (s : string)
| Text (s : string)
| Elem (tag : string) (attrs : list (string * string)) (children : list xml).

Definition html_escape (s : string) : string :=
  PyStr.replace ">" "&gt;" (PyStr.replace "<" "&lt;" (PyStr.replace "&" "&amp;" s)).

Definition attr_escape (s : string) : string :=
  PyStr.replace PyStr.dq "&quot;"
    (PyStr.replace "<" "&lt;" (PyStr.replace "&" "&amp;" s)).

Definition attr_string (kv : string * string) : string :=
  " " +:+ kv.1 +:+ "=" +:+ PyStr.dq +:+ attr_escape kv.2 +:+ PyStr.dq.

Definition open_tag (tag : string) (attrs : list (string * string)) : string :=
  "<" +:+ tag +:+ String.concat "" (map attr_string attrs) +:+ ">".

Definition close_tag (tag : string) : string := "</" +:+ tag +:+ ">".

Definition is_space (c : ascii) : bool :=
  let n := nat_of_ascii c in
  (n =? 32)%nat || ((9 <=? n)%nat && (n <=? 13)%nat).

Fixpoint is_blank (s : string) : bool :=
  match s with
  | EmptyString => true
  | String c r => is_space c && is_blank r
  end.

Definition holds_text (x : xml) : bool :=
  match x with
  | Text s => negb (is_blank (html_escape s))
  | _ => false
  end.

(** The printed form of a node inside a line: blank text is dropped. *)
Fixpoint inline (x : xml) : string :=
  match x with
  | Asis s => s
  | Text s => if is_blank (html_escape s) then "" else html_escape s
  | Elem t a cs =>
      open_tag t a +:+
      (fix go (l : list xml) : string :=
         match l with
         | [] => ""
         | c :: r => inline c +:+ go r
         end) cs +:+
      close_tag t
  end.

Fixpoint pad (unit : string) (level : nat) : string :=
  match level with
  | O => ""
  | S k => unit +:+ pad unit k
  end.

(** The lines of a node at nesting depth [level]. *)
Fixpoint lines (unit : string) (level : nat) (x : xml) : list string :=
  match x with
  | Asis s => [pad unit level +:+ s]
  | Text s =>
      if is_blank (html_escape s) then [] else [pad unit level +:+ html_escape s]
  | Elem t a cs =>
      if existsb holds_text cs then [pad unit level +:+ inline x]
      else
        match (fix go (l : list xml) : list string :=
                 match l with
                 | [] => []
                 | c :: r => lines unit (S level) c ++ go r
                 end) cs with
        | [] => [pad unit level +:+ open_tag t a +:+ close_tag t]
        | body =>
            [pad unit level +:+ open_tag t a] ++ body ++
            [pad unit level +:+ close_tag t]
        end
  end.

(** [indent(doc.getvalue(), indentation = unit, newline = nl)] *)
Definition indent (unit nl : string) (doc : list xml) : string :=
  PyStr.join nl (flat_map (lines unit 0) doc).

End Yattag.

(* ===================================================================== *)
(** ** [_write_xml] *)
(* ===================================================================== *)

Definition xml_header : string :=
  "<?xml version=" +:+ PyStr.dq +:+ "1.0" +:+ PyStr.dq +:+
  " encoding=" +:+ PyStr.dq +:+ "UTF-8" +:+ PyStr.dq +:+ "?>".

(** The two comprehensions at the top of [_write_xml]. *)
Definition image_paths (channels : list string) (slidename : string) (cropped : bool)
  : list string :=
  if cropped
  then map (fun x => slidename +:+ "_" +:+ x +:+ "_cropped.tif") channels
  else map (fun x => slidename +:+ "_" +:+ x +:+ ".tif") channels.

Definition channel_elem (ic : nat * string) : Yattag.xml :=
  Yattag.Elem "channel" [("id", PyStr.str_of_nat (ic.1 + 1))]
    [Yattag.Elem "name" [] [Yattag.Text ic.2]].

Definition image_elem (ip : nat * string) : Yattag.xml :=
  Yattag.Elem "image" [("url", ip.2)]
    [Yattag.Elem "channel" [] [Yattag.Text (PyStr.str_of_nat (ip.1 + 1))]].

(** The document built inside the [with tag(...)] blocks. *)
Definition bias_document (channels : list string) (slidename : string) (cropped : bool)
  : list Yattag.xml :=
  [ Yattag.Asis xml_header;
    Yattag.Elem "BIAS" [("version", "1.0")]
      [ Yattag.Elem "channels" [] (map channel_elem (PyList.enumerate channels));
        Yattag.Elem "images" []
          (map image_elem (PyList.enumerate (image_paths channels slidename cropped))) ] ].

Definition xml_text (channels : list string) (slidename : string) (cropped : bool)
  : string :=
  Yattag.indent "    " PyStr.crlf (bias_document channels slidename cropped).

Definition _write_xml (path : string) (channels : list string) (slidename : string)
    (cropped : bool) : M unit :=
  let result := xml_text channels slidename cropped in
  let write_path := PyStr.path_join path (slidename +:+ ".XML") in
  Fs.write_file write_path (CText result).

(* ===================================================================== *)
(** ** The external environment *)
(* ===================================================================== *)

(** What the external libraries and the disk provide to one run. *)
Record env : Type := mk_env {
  (** [slide.metadata.channel_map]: channel id to channel name. *)
  channel_map : list (Z * string);
  (** [aligner.mosaic_shape] *)
  mosaic_shape : nat * nat;
  (** [mosaic.assemble_channel(channel = c)] *)
  assemble_channel : Z -> plane;
  (** [rescale_intensity(a, (p1, p99), (0, 1)) * 65535] at one pixel, with
      [p1], [p99] the percentiles of the plane [a] at the two cut-offs. *)
  rescale_pixel : percentiles -> plane -> Z -> Z;
  (** [os.path.abspath] *)
  abspath : string -> string;
  (** [tempmmap.redefine_temp_location] *)
  temp_location : string -> string;
  (** the entries [ome_zarr.writer.write_image] stores for an array *)
  zarr_chunks : ndarray3 -> gmap string zentry;
  (** [os.listdir] on the input directories *)
  listdir : string -> option (list string);
  (** the random numbers drawn by [random.sample] *)
  rng : nat -> nat
}.

(** ** Crop specification *)

(** The [crop] dict; margins are pixel counts on the thumbnail. *)
Record crop_spec : Type := mk_crop {
  crop_top : Z;
  crop_bottom : Z;
  crop_left : Z;
  crop_right : Z
}.

Definition no_crop : crop_spec := mk_crop 0 0 0 0.

(** [np.sum(list(crop.values()))] *)
Definition crop_sum (c : crop_spec) : Z :=
  (crop_top c + crop_bottom c + crop_left c + crop_right c)%Z.

Definition is_cropped (c : crop_spec) : bool := (0 <? crop_sum c)%Z.

(** [cropping_factor = 20.00]; [int(m * cropping_factor)] of an integer
    margin [m]. *)
Definition cropping_factor : Z := 20.

Definition scaled (m : Z) : Z := (m * cropping_factor)%Z.

(* ===================================================================== *)
(** ** [generate_stitched]: mosaic assembly *)
(* ===================================================================== *)

(** A loop that threads a value through its iterations. *)
Fixpoint fold_M {A S} (body : S -> A -> M S) (l : list A) (s : S) : M S :=
  match l with
  | [] => ret s
  | x :: r => let* s' := body s x in fold_M body r s'
  end.

Section Assemble.

Variable E : env.
(** closure variables of [_assemble_mosaic] *)
Variable do_intensity_rescale : rescale_mode.
Variable rescale_range : range_spec.
Variable rescale_range_ids : list (Z * percentiles).
Variable outdir : string.
Variable _channels : list Z.

(** One iteration of [for i, channel in enumerate(_channels)]. *)
Definition assemble_step (x y : nat) (mosaics : ndarray3) (ic : nat * Z)
  : M ndarray3 :=
  let i := ic.1 in
  let channel := ic.2 in
  do emit (EAssemble channel) then
  let* mosaics1 :=
    lift (Np.setitem_plane x y mosaics i (assemble_channel E channel)) in
  match do_intensity_rescale with
  | RescaleFullImage =>
      let* cutoffs :=
        lift (match rescale_range with
              | RangeDict _ => PyDict.getitem rescale_range_ids channel
              | RangeTuple r => Ok r
              end) in
      let* cur := lift (PyList.getitem mosaics1 i) in
      lift (Np.setitem_plane x y mosaics1 i
              (map (map (rescale_pixel E cutoffs cur)) cur))
  | _ => ret mosaics1
  end.

(** Lines 281-299: the crop of the assembled array of shape
    [(_, x, y)]. *)
Definition crop_mosaic (crop : crop_spec) (x y : nat) (mosaics : ndarray3)
  : ndarray3 :=
  if (0 <? crop_sum crop)%Z then
    let top := scaled (crop_top crop) in
    let bottom := scaled (crop_bottom crop) in
    let left := scaled (crop_left crop) in
    let right := scaled (crop_right crop) in
    Np.slice3 top (Z.of_nat x - bottom) left (Z.of_nat y - right) mosaics
  else mosaics.

Definition redefine_temp_location : M unit :=
  fun w =>
    let t := temp_location E outdir in
    (Ok tt, mk_world (<[t := Dir ∅]> (fs w)) (trace w ++ [ETempDir t]) (Some t)).

Definition _assemble_mosaic (mosaic_channels : list Z) (shape : nat * nat)
    (crop : crop_spec) : M ndarray3 :=
  let n_channels := length mosaic_channels in
  let x := shape.1 in
  let y := shape.2 in
  do redefine_temp_location then
  let mosaics := Np.zeros n_channels x y in
  let* mosaics' :=
    fold_M (assemble_step x y) (PyList.enumerate _channels) mosaics in
  ret (crop_mosaic crop x y mosaics').

End Assemble.

(* ===================================================================== *)
(** ** [generate_stitched]: exporters *)
(* ===================================================================== *)

(** The keyword arguments of [generate_stitched]. *)
Record stitch_args : Type := mk_args {
  input_dir : string;
  slidename : string;
  pattern : string;
  outdir : string;
  overlap : Q;
  max_shift : Z;
  stitching_channel : string;
  crop : crop_spec;
  plot_QC : bool;
  filetype : list string;
  WGAchannel : option string;
  do_intensity_rescale : rescale_mode;
  rescale_range : range_spec;
  no_rescale_channel : option (list string);
  export_XML : bool;
  return_tile_positions : bool;
  channel_order : option (list string);
  filter_sigma : Z
}.

(** The defaults of the signature. *)
Definition default_args (input_dir slidename pattern outdir : string) : stitch_args :=
  {| input_dir := input_dir; slidename := slidename; pattern := pattern;
     outdir := outdir; overlap := 0.1%Q; max_shift := 30;
     stitching_channel := "Alexa488"; crop := no_crop; plot_QC := true;
     filetype := [".tif"]; WGAchannel := None;
     do_intensity_rescale := RescaleOn; rescale_range := RangeTuple (1%Q, 99%Q);
     no_rescale_channel := None; export_XML := true;
     return_tile_positions := true; channel_order := None; filter_sigma := 0 |}.

(** The name of the flat TIFF of one channel. *)
Definition tif_name (slidename : string) (cropped : bool) (channel : string) : string :=
  if cropped then slidename +:+ "_" +:+ channel +:+ "_cropped.tif"
  else slidename +:+ "_" +:+ channel +:+ ".tif".

(** [im = Image.fromarray(merged_array[i].astype('uint16')); im.save(...)] *)
Definition save_channel (outdir name : string) (merged_array : ndarray3) (i : nat)
  : M unit :=
  let* p := lift (PyList.getitem merged_array i) in
  Fs.write_file (PyStr.path_join outdir name) (CTiff (Np.astype_uint16 p)).

(** The branch [elif ".tif" in filetype], after the assembly. *)
Definition export_flat_tif (outdir slidename : string) (channel_names : list string)
    (crop : crop_spec) (export_XML : bool) (merged_array : ndarray3) : M unit :=
  if (0 <? crop_sum crop)%Z then
    do for_each (PyList.enumerate channel_names)
         (fun ic => save_channel outdir
                      (slidename +:+ "_" +:+ ic.2 +:+ "_cropped.tif") merged_array ic.1)
    then
    if export_XML then _write_xml outdir channel_names slidename true else ret tt
  else
    do for_each (PyList.enumerate channel_names)
         (fun ic => save_channel outdir
                      (slidename +:+ "_" +:+ ic.2 +:+ ".tif") merged_array ic.1)
    then
    if export_XML then _write_xml outdir channel_names slidename false else ret tt.

(** The branch [elif "ome.tif" in filetype]: [PyramidWriter] reads the
    mosaic object itself. *)
Definition export_ome_tif (outdir slidename : string) (mosaic_channels : list Z)
  : M unit :=
  let path := PyStr.path_join outdir (slidename +:+ ".ome.tiff") in
  Fs.write_file path (COmeTiff mosaic_channels).

Definition channel_colors : list string :=
  ["#e60049"; "#0bb4ff"; "#50e991"; "#e6d800"; "#9b19f5"; "#ffa300"; "#dc0ab4";
   "#b3d4ff"; "#00bfa0"].

(** [while len(values) > len(channel_colors): channel_colors += channel_colors];
    each round at least adds one colour, so [n] rounds are enough. *)
Fixpoint extend_colors (fuel n : nat) (colors : list string) : list string :=
  match fuel with
  | O => colors
  | S f => if (length colors <? n)%nat then extend_colors f n (colors ++ colors)
           else colors
  end.

Definition omero_channels (channel_names : list string)
  : outcome (list (string * string * bool)) :=
  let colors := extend_colors (length channel_names) (length channel_names)
                              channel_colors in
  map_outcome (fun ic : nat * string =>
                 match PyList.getitem colors ic.1 with
                 | Ok c => Ok (ic.2, c, true)
                 | Raise e => Raise e
                 end)
              (PyList.enumerate channel_names).

(** The branch [elif "ome.zarr" in filetype], after the assembly. *)
Definition export_ome_zarr (E : env) (outdir slidename : string)
    (channel_names : list string) (merged_array : ndarray3) : M unit :=
  let path := PyStr.path_join outdir (slidename +:+ ".ome.zarr") in
  let* d := Fs.isdir path in
  do (if d : bool then Fs.rmtree path else ret tt) then
  do Fs.store_update path {[ ".zgroup" := ZGroup ]} then
  let* chans := lift (omero_channels channel_names) in
  do Fs.store_update path {[ ".zattrs" := ZAttrs (slidename +:+ ".ome.zarr") chans ]} then
  Fs.store_update path (zarr_chunks E merged_array).

(** The end of [generate_stitched]: the temporary directory recorded in
    the global is removed and the global deleted. *)
Definition cleanup_temp : M unit :=
  fun w =>
    match TEMP_DIR_NAME w with
    | Some t =>
        (Ok tt, mk_world (filter (Fs.keep t) (fs w)) (trace w ++ [ECleanupTemp t]) None)
    | None => (Ok tt, w)
    end.

(* ===================================================================== *)
(** ** [generate_stitched] *)
(* ===================================================================== *)

Definition partial_exit_message : string :=
  "do_intensity_rescale set to partial but not channel passed for which no rescaling should be done.".

(** [{list(channel_map.values()).index(k): v for k, v in rescale_range.items()}] *)
Definition resolve_range (E : env) (d : list (string * percentiles))
  : outcome (list (Z * percentiles)) :=
  map_outcome (fun kv : string * percentiles =>
                 match PyList.index kv.1 (PyDict.values (channel_map E)) with
                 | Ok i => Ok (i, kv.2)
                 | Raise e => Raise e
                 end) d.

(** Lines 320-327. *)
Definition configure_partial (E : env) (a : stitch_args) (slide : reader) : M reader :=
  match do_intensity_rescale a with
  | RescalePartial =>
      match no_rescale_channel a with
      | Some names =>
          let* ids := lift (map_outcome (PyDict.values_view_index (channel_map E)) names) in
          ret (mk_reader (rd_path slide) (rd_pattern slide) (rd_overlap slide)
                         (rd_rescale_range slide) (rd_do_rescale slide)
                         (rd_WGAchannel slide) (Some ids))
      | None => raise (SystemExit partial_exit_message)
      end
  | _ => ret slide
  end.

(** Lines 359-368. *)
Definition select_channels (E : env) (a : stitch_args) (mosaic_channels : list Z)
  : outcome (list Z) :=
  match channel_order a with
  | None => Ok mosaic_channels
  | Some order =>
      map_outcome (fun c => PyList.index c (PyDict.values (channel_map E))) order
  end.

(** Lines 310-314: [rescale_range_ids], computed only for a dict. *)
Definition range_ids_of (E : env) (a : stitch_args) : outcome (list (Z * percentiles)) :=
  match rescale_range a with
  | RangeDict d => resolve_range E d
  | RangeTuple _ => Ok []
  end.

Definition generate_stitched (E : env) (a : stitch_args)
  : M (option (ndarray3 * list string)) :=
  let outdir := abspath E (outdir a) in
  (* read data *)
  do emit (EReadSlide (input_dir a) (pattern a)) then
  let slide0 := mk_reader (input_dir a) (pattern a) (overlap a)
                          (AsGiven (rescale_range a)) RescaleOn None None in
  let* ids := lift (range_ids_of E a) in
  let slide1 :=
    match rescale_range a with
    | RangeDict _ => mk_reader (rd_path slide0) (rd_pattern slide0) (rd_overlap slide0)
                               (ByChannelId ids) (rd_do_rescale slide0)
                               (rd_WGAchannel slide0) (rd_no_rescale_channel slide0)
    | RangeTuple _ => slide0
    end in
  let slide2 := mk_reader (rd_path slide1) (rd_pattern slide1) (rd_overlap slide1)
                          (rd_rescale_range slide1) (do_intensity_rescale a)
                          (WGAchannel a) (rd_no_rescale_channel slide1) in
  let* slide := configure_partial E a slide2 in
  (* flip y-axis *)
  do emit EAxisFlip then
  let* channel_id :=
    lift (PyList.index (stitching_channel a) (PyDict.values (channel_map E))) in
  do emit (EAlign slide channel_id (filter_sigma a) (max_shift a)) then
  do (if plot_QC a
      then do emit (EPlotQC "plot_edge_scatter" outdir) then
           emit (EPlotQC "plot_edge_quality" outdir)
      else ret tt) then
  let mosaic_channels := PyDict.keys (channel_map E) in
  let* _channels := lift (select_channels E a mosaic_channels) in
  let channel_names := PyDict.values (channel_map E) in
  let assemble :=
    _assemble_mosaic E (do_intensity_rescale a) (rescale_range a) ids outdir
                     _channels mosaic_channels (mosaic_shape E) (crop a) in
  (* output tile positions if required *)
  do (if PyList.mem "return_array" (filetype a) then ret tt
      else if return_tile_positions a
           then Fs.write_file
                  (PyStr.path_join outdir (slidename a +:+ "_tile_positions.tsv"))
                  CPositions
           else ret tt) then
  if PyList.mem "return_array" (filetype a) then
    let* merged_array := assemble in
    ret (Some (merged_array, channel_names))
  else
    do (if PyList.mem ".tif" (filetype a) then
          let* merged_array := assemble in
          export_flat_tif outdir (slidename a) channel_names (crop a)
                          (export_XML a) merged_array
        else if PyList.mem "ome.tif" (filetype a) then
          export_ome_tif outdir (slidename a) mosaic_channels
        else if PyList.mem "ome.zarr" (filetype a) then
          let* merged_array := assemble in
          export_ome_zarr E outdir (slidename a) channel_names merged_array
        else ret tt) then
    do cleanup_temp then
    ret None.

(* ===================================================================== *)
(** ** [generate_thumbnail] *)
(* ===================================================================== *)

Module Random.

(** Drawing [k] elements without replacement; draw number [j] takes the
    element at position [rng j mod len] of what is left. *)
Fixpoint draw (rng : nat -> nat) (j k : nat) (pool : list string) : list string :=
  match k with
  | O => []
  | S k' =>
      match pool !! (rng j mod length pool)%nat with
      | Some x => x :: draw rng (S j) k' (delete (rng j mod length pool)%nat pool)
      | None => []
      end
  end.

(** [random.sample(population, k)] *)
Definition sample (rng : nat -> nat) (population : list string) (k : nat)
  : outcome (list string) :=
  if (length population <? k)%nat
  then Raise (ValueError "Sample larger than population or is negative")
  else Ok (draw rng 0 k population).

End Random.

Record thumbnail_args : Type := mk_thumbnail_args {
  th_input_dir : string;
  th_pattern : string;
  th_outdir : string;
  th_overlap : Q;
  th_name : string;
  th_stitching_channel : string;
  th_export_examples : bool;
  th_do_intensity_rescale : bool;
  th_rescale_range : percentiles;
  th_scale : Q
}.

(** [Image.open(path)] of an input tile: the tile has to be in the listing
    of the input directory. *)
Definition image_open (E : env) (dir file : string) : outcome string :=
  match listdir E dir with
  | Some names =>
      if PyList.mem file names then Ok (PyStr.path_join dir file)
      else Raise (FileNotFoundError (PyStr.path_join dir file))
  | None => Raise (FileNotFoundError (PyStr.path_join dir file))
  end.

(** The body of the two nested loops of the example export. *)
Definition export_example (E : env) (a : thumbnail_args) (outdir_examples : string)
    (channel file : string) : M unit :=
  let file' := PyStr.replace (th_stitching_channel a) channel file in
  let* img := lift (image_open E (th_input_dir a) file') in
  Fs.write_file (PyStr.path_join outdir_examples file') (CRescaledTile img).

(** The files of the reference channel among a directory listing: the two
    list comprehensions on [all_files] and [_files]. *)
Definition reference_files (a : thumbnail_args) (listing : list string) : list string :=
  let all_files := List.filter (PyStr.contains (PyStr.take 10 (th_pattern a))) listing in
  List.filter (PyStr.contains (th_stitching_channel a)) all_files.

Definition export_examples (E : env) (a : thumbnail_args) : M unit :=
  let channels := PyDict.values (channel_map E) in
  let* listing :=
    lift (match listdir E (th_input_dir a) with
          | Some l => Ok l
          | None => Raise (FileNotFoundError (th_input_dir a))
          end) in
  let outdir_examples := PyStr.path_join (th_outdir a) "example_images" in
  let* ex := Fs.exists_ outdir_examples in
  do (if ex : bool then ret tt else Fs.makedirs outdir_examples) then
  let* _files := lift (Random.sample (rng E) (reference_files a listing) 10) in
  for_each channels (fun channel =>
    for_each _files (fun file => export_example E a outdir_examples channel file)).

Definition generate_thumbnail (E : env) (a : thumbnail_args) : M unit :=
  do emit (EReadSlide (th_input_dir a) (th_pattern a)) then
  do emit EAxisFlip then
  let* channel_id :=
    lift (PyList.index (th_stitching_channel a) (PyDict.values (channel_map E))) in
  do emit (EThumbnail channel_id) then
  do Fs.write_file
       (PyStr.path_join (th_outdir a)
          (th_name a +:+ "_thumbnail_" +:+ th_stitching_channel a +:+ ".tif"))
       (CThumbnail channel_id) then
  if th_export_examples a then export_examples E a else ret tt.

(* ===================================================================== *)
(** ** [prepare_stitch_slurm_job] *)
(* ===================================================================== *)

(** The fragment of regular expressions the module uses: literal
    characters and [.] (any character but a newline). *)
Module Re.

Inductive item : Type := Lit (c : ascii) | Dot.

Definition item_matches (it : item) (c : ascii) : bool :=
  match it with
  | Lit a => Ascii.eqb a c
  | Dot => negb (Ascii.eqb c "010"%char)
  end.

(** A match that starts at the first character; the matched text. *)
Fixpoint match_here (pat : list item) (s : string) : option string :=
  match pat with
  | [] => Some EmptyString
  | it :: pat' =>
      match s with
      | EmptyString => None
      | String c s' =>
          if item_matches it c
          then match match_here pat' s' with
               | Some m => Some (String c m)
               | None => None
               end
          else None
      end
  end.

(** [re.search(pat, s)]: the leftmost match. *)
Fixpoint search (pat : list item) (s : string) : option string :=
  match match_here pat s with
  | Some m => Some m
  | None =>
      match s with
      | EmptyString => None
      | String _ s' => search pat s'
      end
  end.

Definition lits (s : string) : list item := map Lit (list_ascii_of_string s).

(** ["Row.._Well.."] *)
Definition well_re : list item := lits "Row" ++ [Dot; Dot] ++ lits "_Well" ++ [Dot; Dot].

(** ["^Timepoint..."], the part after the anchor *)
Definition timepoint_re : list item := lits "Timepoint" ++ [Dot; Dot; Dot].

(** [m.group()] of a search result; [None] has no such method. *)
Definition group (m : option string) : outcome string :=
  match m with
  | Some g => Ok g
  | None => Raise (AttributeError "'NoneType' object has no attribute 'group'")
  end.

End Re.

Record slurm_args : Type := mk_slurm_args {
  sl_path : string;
  sl_stitching_channel : string;
  sl_zstack_value : Z;
  (** the text Python prints for the float arguments in an f-string *)
  sl_rescale_range_repr : string;
  sl_overlap_repr : string;
  sl_jobs_per_file : Z
}.

Definition os_listdir (E : env) (p : string) : outcome (list string) :=
  match listdir E p with
  | Some l => Ok l
  | None => Raise (FileNotFoundError p)
  end.

(** [if not os.path.isdir(p): os.makedirs(p)] *)
Definition ensure_dir (p : string) : M unit :=
  let* d := Fs.isdir p in
  if d : bool then ret tt else Fs.makedirs p.

Definition processing_py (outdir : string) (a : slurm_args) : string :=
  String.concat ""
    [ "from sparcstools.stitch import generate_stitched " +:+ PyStr.lf;
      "import sys " +:+ PyStr.lf;
      "import os " +:+ PyStr.lf;
      "pattern = sys.argv[1] " +:+ PyStr.lf;
      "slidename = sys.argv[2] " +:+ PyStr.lf;
      "pattern = sys.argv[1] " +:+ PyStr.lf;
      "path = sys.argv[3] " +:+ PyStr.lf;
      "outdir = " +:+ PyStr.dq +:+ outdir +:+ PyStr.dq +:+ " " +:+ PyStr.lf;
      "stitching_channel = " +:+ PyStr.dq +:+ sl_stitching_channel a +:+ PyStr.dq
        +:+ " " +:+ PyStr.lf;
      "zstack_value = " +:+ PyStr.str_of_Z (sl_zstack_value a) +:+ " " +:+ PyStr.lf;
      "rescale_range = " +:+ sl_rescale_range_repr a +:+ " " +:+ PyStr.lf;
      "overlap = " +:+ sl_overlap_repr a +:+ " " +:+ PyStr.lf;
      "generate_stitched(path, slidename, pattern, outdir, overlap, stitching_channel = stitching_channel, crop = {'top':0, 'bottom':0, 'left':0, 'right':0}, plot_QC = False, filetype = ["
        +:+ PyStr.dq +:+ ".tif" +:+ PyStr.dq +:+
        "], do_intensity_rescale = True, rescale_range = rescale_range, export_XML = False, return_tile_positions = False) "
        +:+ PyStr.lf ].

(** The line of [run.sh] that sizes the job array. *)
Definition array_line (n_jobs : Z) : string :=
  "#SBATCH --array=1-" +:+ PyStr.str_of_Z n_jobs +:+ "%20 " +:+ PyStr.lf +:+ PyStr.lf.

Definition run_sh_head : list string :=
  [ "#!/bin/bash -l " +:+ PyStr.lf;
    "#SBATCH --job-name=stitching " +:+ PyStr.lf;
    "#SBATCH -o " +:+ PyStr.dq +:+ "./run%A-%a.out.%j" +:+ PyStr.dq +:+ " " +:+ PyStr.lf;
    "#SBATCH -e " +:+ PyStr.dq +:+ "./run%A-%a.err.%j" +:+ PyStr.dq +:+ " " +:+ PyStr.lf;
    "#SBATCH -D ./ " +:+ PyStr.lf;
    "#SBATCH --nodes=1 " +:+ PyStr.lf;
    "#SBATCH --tasks-per-node=1 " +:+ PyStr.lf;
    "#SBATCH --cpus-per-task=24 " +:+ PyStr.lf;
    "#SBATCH --time=24:00:00 " +:+ PyStr.lf ].

Definition run_sh_tail (jobs_per_file : Z) (outdir_slurm : string) : list string :=
  [ "PER_TASK=" +:+ PyStr.str_of_Z jobs_per_file +:+ PyStr.lf;
    "# Calculate the starting and ending values for this task based" +:+ PyStr.lf;
    "# on the SLURM task and the number of runs per task." +:+ PyStr.lf;
    "START_NUM=$(( ($SLURM_ARRAY_TASK_ID - 1) * $PER_TASK + 1 ))" +:+ PyStr.lf;
    "END_NUM=$(( $SLURM_ARRAY_TASK_ID * $PER_TASK ))" +:+ PyStr.lf;
    "#Specify the path to the config file " +:+ PyStr.lf +:+ "config=" +:+ outdir_slurm
      +:+ "/array_inputs.csv" +:+ PyStr.lf +:+ PyStr.lf;
    "module load cuda/11.0  " +:+ PyStr.lf;
    "module load jdk/8  " +:+ PyStr.lf;
    "module list  " +:+ PyStr.lf +:+ " " +:+ PyStr.lf;
    "conda activate stitching  " +:+ PyStr.lf;
    "echo $CONDA_DEFAULT_ENV " +:+ PyStr.lf +:+ PyStr.lf;
    "conda list " +:+ PyStr.lf;
    "for (( run=$START_NUM; run<=END_NUM; run++ )); do" +:+ PyStr.lf;
    "  #Extract parameters for the current $run " +:+ PyStr.lf;
    "  pattern=$(awk -v ArrayTaskID=$run '$1==ArrayTaskID {print $2}' $config) " +:+ PyStr.lf;
    "  slidename=$(awk -v ArrayTaskID=$run '$1==ArrayTaskID {print $3}' $config) " +:+ PyStr.lf;
    "  path=$(awk -v ArrayTaskID=$run '$1==ArrayTaskID {print $4}' $config) " +:+ PyStr.lf
      +:+ " " +:+ PyStr.lf;
    "  echo " +:+ PyStr.dq +:+
      "calling processing script with input parameter: {$pattern} {$slidename} {$path} "
      +:+ PyStr.dq +:+ "  " +:+ PyStr.lf;
    "  srun python ../processing.py $pattern $slidename $path " +:+ PyStr.lf;
    "done" +:+ PyStr.lf ].

(** The successive [f.write] calls on [run.sh]. *)
Definition run_sh_writes (n_jobs jobs_per_file : Z) (outdir_slurm : string) : list string :=
  run_sh_head ++ [array_line n_jobs] ++ run_sh_tail jobs_per_file outdir_slurm.

Definition run_sh (n_jobs jobs_per_file : Z) (outdir_slurm : string) : string :=
  String.concat "" (run_sh_writes n_jobs jobs_per_file outdir_slurm).

(** One entry of [to_process]: (pattern, slidename, path). *)
Definition job_row (input_path : string) (zstack_value : Z) (timepoint well : string)
  : list string :=
  [ timepoint +:+ "_" +:+ well +:+ "_" +:+ "{channel}_" +:+ "zstack" +:+
      PyStr.zfill 3 (PyStr.str_of_Z zstack_value) +:+ "_r{row:03}_c{col:03}.tif";
    timepoint +:+ "_" +:+ well;
    input_path +:+ "/" +:+ well ].

(** The two nested loops that fill [to_process]. *)
Definition jobs (input_path : string) (zstack_value : Z) (timepoints wells : list string)
  : list (list string) :=
  flat_map (fun timepoint => map (job_row input_path zstack_value timepoint) wells)
           timepoints.

(** [pd.DataFrame(rows)] followed by the assignment of three column names:
    a frame built from an empty list has no column and the assignment
    raises. *)
Definition data_frame (rows : list (list string)) : outcome content :=
  match rows with
  | [] => Raise (ValueError "Length mismatch: Expected axis has 0 elements, new values have 3 elements")
  | _ => Ok (CTable "ArrayTaskID" ["pattern"; "slidename"; "path"] rows)
  end.

(** The wells and timepoints found on disk (lines 574-579). *)
Definition find_wells (E : env) (input_path : string) : outcome (list string) :=
  match os_listdir E input_path with
  | Raise e => Raise e
  | Ok files =>
      let files := List.filter (fun x => negb (PyList.mem x [".DS_Store"])) files in
      match map_outcome (fun x => Re.group (Re.search Re.well_re x)) files with
      | Raise e => Raise e
      | Ok ws => Ok (Np.unique ws)
      end
  end.

Definition find_timepoints (E : env) (input_path : string) (wells : list string)
  : outcome (list string) :=
  match PyList.getitem wells 0 with
  | Raise e => Raise e
  | Ok well0 =>
      match os_listdir E (PyStr.path_join input_path well0) with
      | Raise e => Raise e
      | Ok _files =>
          let _files := List.filter (PyStr.endswith ".tif") _files in
          match map_outcome (fun x => Re.group (Re.match_here Re.timepoint_re x)) _files with
          | Raise e => Raise e
          | Ok ts => Ok (Np.unique ts)
          end
      end
  end.

Definition prepare_stitch_slurm_job (E : env) (a : slurm_args) : M unit :=
  let path := sl_path a in
  let outdir_slurm := PyStr.path_join (PyStr.path_join path "slurm_jobs") "stitch_all" in
  let outdir := PyStr.path_join path "stitched_wells" in
  let input_path := PyStr.path_join path "well_sorted" in
  let logs_dir := PyStr.path_join outdir_slurm "logs" in
  do ensure_dir outdir_slurm then
  do ensure_dir outdir then
  do ensure_dir logs_dir then
  do Fs.write_file (outdir_slurm +:+ "/processing.py") (CText (processing_py outdir a)) then
  let* wells := lift (find_wells E input_path) in
  let* timepoints := lift (find_timepoints E input_path wells) in
  let to_process := jobs input_path (sl_zstack_value a) timepoints wells in
  let* table := lift (data_frame to_process) in
  do Fs.write_file (outdir_slurm +:+ "/array_inputs.csv") table then
  let* n_jobs :=
    lift (Np.ceil_div (Z.of_nat (length to_process)) (sl_jobs_per_file a)) in
  Fs.write_file (outdir_slurm +:+ "/run.sh")
                (CText (run_sh n_jobs (sl_jobs_per_file a) outdir_slurm)).

(* ===================================================================== *)
(** ** [_reorder_list] and [_stitch] *)
(* ===================================================================== *)

(** A loop over a list that threads a value and may raise. *)
Fixpoint fold_outcome {A S} (body : S -> A -> outcome S) (l : list A) (s : S)
  : outcome S :=
  match l with
  | [] => Ok s
  | x :: r =>
      match body s x with
      | Ok s' => fold_outcome body r s'
      | Raise e => Raise e
      end
  end.

(** The position a Python list of length [n] assigns to for index [i]:
    negative indices count from the end, anything else out of range is an
    [IndexError]. *)
Definition assign_position (n : nat) (i : Z) : outcome nat :=
  if ((0 <=? i) && (i <? Z.of_nat n))%Z then Ok (Z.to_nat i)
  else if ((- Z.of_nat n <=? i) && (i <? 0))%Z then Ok (Z.to_nat (i + Z.of_nat n))
  else Raise IndexError.

(** One round of [for i, index in enumerate(index_list)]. *)
Definition reorder_step {A} (original_list : list A) (reordered_list : list (option A))
    (ii : nat * Z) : outcome (list (option A)) :=
  match PyList.getitem original_list ii.1 with
  | Raise e => Raise e
  | Ok x =>
      match assign_position (length reordered_list) ii.2 with
      | Raise e => Raise e
      | Ok k => Ok (<[k := Some x]> reordered_list)
      end
  end.

(** Lines 94-103; a slot that was never assigned holds [None]. *)
Definition _reorder_list {A} (original_list : list A) (index_list : list Z)
  : outcome (list (option A)) :=
  if negb (length original_list =? length index_list)%nat
  then Raise (ValueError "The length of the original list and index list must be the same.")
  else
    let reordered_list := repeat None (length original_list) in
    fold_outcome (reorder_step original_list) (PyList.enumerate index_list) reordered_list.


(* ===================================================================== *)
(** ** Concrete inputs *)
(* ===================================================================== *)

Module Demo.

Definition listing (p : string) : option (list string) :=
  if String.eqb p "/in" then
    Some [ "Row1_Well2_DAPI_zstack3_r001_c001.tif";
           "Row1_Well2_Alexa488_zstack3_r001_c001.tif";
           "Row1_Well2_DAPI_zstack3_r001_c002.tif";
           "Row1_Well2_Alexa488_zstack3_r001_c002.tif" ]
  else if String.eqb p "/proj/well_sorted" then
    Some [ "Row01_Well02"; ".DS_Store"; "Row01_Well01"; "Row02_Well01" ]
  else if String.eqb p "/proj/well_sorted/Row01_Well01" then
    Some [ "Timepoint002_Row01_Well01_DAPI_zstack001_r001_c001.tif";
           "Timepoint001_Row01_Well01_DAPI_zstack001_r001_c001.tif";
           "Timepoint001_Row01_Well01_DAPI_zstack001_r001_c002.tif";
           "notes.txt" ]
  else None.

Definition E : env :=
  {| channel_map := [(0%Z, "Alexa488"); (1%Z, "DAPI")];
     mosaic_shape := (45, 30)%nat;
     assemble_channel := fun c => repeat (repeat (c + 7)%Z 30) 45;
     rescale_pixel := fun _ _ z => z;
     abspath := fun p => p;
     temp_location := fun p => p +:+ "/temp_mmap";
     zarr_chunks := fun a => {[ "0/.zarray" := ZChunk (map (fun p => Z.of_nat (length p)) a) ]};
     listdir := listing;
     rng := fun n => n |}.

(** A reader whose only channel is called [cropped]. *)
Definition E_odd : env :=
  {| channel_map := [(0%Z, "cropped")];
     mosaic_shape := (2, 2)%nat;
     assemble_channel := fun c => repeat (repeat 1%Z 2) 2;
     rescale_pixel := fun _ _ z => z;
     abspath := fun p => p;
     temp_location := fun p => p +:+ "/temp_mmap";
     zarr_chunks := fun a => ∅;
     listdir := fun _ => None;
     rng := fun n => n |}.

(** A project directory that holds nothing but a [.DS_Store] entry. *)
Definition E_empty : env :=
  {| channel_map := [(0%Z, "DAPI")];
     mosaic_shape := (2, 2)%nat;
     assemble_channel := fun c => repeat (repeat 1%Z 2) 2;
     rescale_pixel := fun _ _ z => z;
     abspath := fun p => p;
     temp_location := fun p => p +:+ "/temp_mmap";
     zarr_chunks := fun a => ∅;
     listdir := fun _ => Some [".DS_Store"];
     rng := fun n => n |}.

(** Twelve tiles of the reference channel and their counterparts. *)
Definition tiles12 : list string :=
  flat_map (fun c => [ "Row1_Well2_DAPI_zstack3_r001_c0" +:+ c +:+ ".tif";
                       "Row1_Well2_Alexa488_zstack3_r001_c0" +:+ c +:+ ".tif" ])
           ["01"; "02"; "03"; "04"; "05"; "06"; "07"; "08"; "09"; "10"; "11"; "12"].

Definition E_tiles : env :=
  {| channel_map := [(0%Z, "Alexa488"); (1%Z, "DAPI")];
     mosaic_shape := (2, 2)%nat;
     assemble_channel := fun c => repeat (repeat 1%Z 2) 2;
     rescale_pixel := fun _ _ z => z;
     abspath := fun p => p;
     temp_location := fun p => p +:+ "/temp_mmap";
     zarr_chunks := fun a => ∅;
     listdir := fun p => if String.eqb p "/in" then Some tiles12 else None;
     rng := fun n => n * 7 |}.

Definition w0 : world := mk_world ∅ [] None.

Definition with_filetype (ft : list string) : stitch_args :=
  mk_args "/in" "S1" "pat" "/out" 0.1%Q 30 "Alexa488" no_crop true ft None
          RescaleOn (RangeTuple (1%Q, 99%Q)) None true true None 0.

Definition partial_args (excl : option (list string)) : stitch_args :=
  mk_args "/in" "S1" "pat" "/out" 0.1%Q 30 "Alexa488" no_crop true [".tif"] None
          RescalePartial (RangeTuple (1%Q, 99%Q)) excl true true None 0.

Definition reorder_args (order : list string) : stitch_args :=
  mk_args "/in" "S1" "pat" "/out" 0.1%Q 30 "Alexa488" no_crop true [".tif"] None
          RescaleOn (RangeTuple (1%Q, 99%Q)) None true true (Some order) 0.

Definition odd_args : stitch_args :=
  mk_args "/in" "S1" "pat" "/out" 0.1%Q 30 "cropped" no_crop false [".tif"] None
          RescaleOn (RangeTuple (1%Q, 99%Q)) None false false None 0.

Definition dict_args : stitch_args :=
  mk_args "/in" "S1" "pat" "/out" 0.1%Q 30 "Alexa488" no_crop true [".tif"] None
          RescalePartial
          (RangeDict [("DAPI", (1%Q, 99%Q)); ("Cy5", (0.5%Q, 99.5%Q))])
          None true true None 0.





Definition thumb_args : thumbnail_args :=
  mk_thumbnail_args "/in" "Row1_Well2_{channel}_zstack3_r{row:03}_c{col:03}.tif"
                    "/out" 0.1%Q "S1" "DAPI" true true (1%Q, 99%Q) 0.05%Q.

Definition slurm : slurm_args :=
  mk_slurm_args "/proj" "mCherry" 1 "(0.1, 99.9)" "0.1" 24.

End Demo.

(* ===================================================================== *)
(** ** Vocabulary of the statements *)
(* ===================================================================== *)

(** The world after a run that added the events [evs] and touched no file. *)
Definition logged (w : world) (evs : list event) : world :=
  mk_world (fs w) (trace w ++ evs) (TEMP_DIR_NAME w).

(** Events that put something on disk. *)
Definition writes_output (e : event) : bool :=
  match e with
  | EPlotQC _ _ | ETempDir _ | EMakedirs _ | EWrite _ => true
  | _ => false
  end.

(** The events of [generate_stitched] up to the channel selection. *)
Definition qc_events (E : env) (a : stitch_args) : list event :=
  if plot_QC a
  then [EPlotQC "plot_edge_scatter" (abspath E (outdir a));
        EPlotQC "plot_edge_quality" (abspath E (outdir a))]
  else [].

(** The reader as configured when no exclusion list is involved. *)
Definition plain_reader (a : stitch_args) (ids : list (Z * percentiles)) : reader :=
  mk_reader (input_dir a) (pattern a) (overlap a)
            (match rescale_range a with
             | RangeDict _ => ByChannelId ids
             | RangeTuple _ => AsGiven (rescale_range a)
             end)
            (do_intensity_rescale a) (WGAchannel a) None.

(** The crop marker of the file names. *)
Definition crop_marker : string := "_cropped".

(** [c] does not occur in [s]. *)
Fixpoint char_free (c : ascii) (s : string) : bool :=
  match s with
  | EmptyString => true
  | String a r => negb (Ascii.eqb a c) && char_free c r
  end.

(** The text [_write_xml] writes for channels [DAPI], [Alexa488] and slide
    [S1]. *)
Definition sidecar_S1 : string :=
  PyStr.join PyStr.crlf
    [ "<?xml version=" +:+ PyStr.dq +:+ "1.0" +:+ PyStr.dq +:+ " encoding="
        +:+ PyStr.dq +:+ "UTF-8" +:+ PyStr.dq +:+ "?>";
      "<BIAS version=" +:+ PyStr.dq +:+ "1.0" +:+ PyStr.dq +:+ ">";
      "    <channels>";
      "        <channel id=" +:+ PyStr.dq +:+ "1" +:+ PyStr.dq +:+ ">";
      "            <name>DAPI</name>";
      "        </channel>";
      "        <channel id=" +:+ PyStr.dq +:+ "2" +:+ PyStr.dq +:+ ">";
      "            <name>Alexa488</name>";
      "        </channel>";
      "    </channels>";
      "    <images>";
      "        <image url=" +:+ PyStr.dq +:+ "S1_DAPI.tif" +:+ PyStr.dq +:+ ">";
      "            <channel>1</channel>";
      "        </image>";
      "        <image url=" +:+ PyStr.dq +:+ "S1_Alexa488.tif" +:+ PyStr.dq +:+ ">";
      "            <channel>2</channel>";
      "        </image>";
      "    </images>";
      "</BIAS>" ].


(** The paths [prepare_stitch_slurm_job] works with. *)
Definition slurm_dir (a : slurm_args) : string :=
  PyStr.path_join (PyStr.path_join (sl_path a) "slurm_jobs") "stitch_all".

Definition well_dir (a : slurm_args) : string := PyStr.path_join (sl_path a) "well_sorted".



(** What [generate_stitched] does once the channels are selected: the
    tile positions, the exporter chosen by [filetype], the clean-up. *)
Definition after_selection (E : env) (a : stitch_args) (ids : list (Z * percentiles))
    (_channels : list Z) : M (option (ndarray3 * list string)) :=
  let outdir := abspath E (outdir a) in
  let mosaic_channels := PyDict.keys (channel_map E) in
  let channel_names := PyDict.values (channel_map E) in
  let assemble :=
    _assemble_mosaic E (do_intensity_rescale a) (rescale_range a) ids outdir
                     _channels mosaic_channels (mosaic_shape E) (crop a) in
  do (if PyList.mem "return_array" (filetype a) then ret tt
      else if return_tile_positions a
           then Fs.write_file
                  (PyStr.path_join outdir (slidename a +:+ "_tile_positions.tsv"))
                  CPositions
           else ret tt) then
  if PyList.mem "return_array" (filetype a) then
    let* merged_array := assemble in
    ret (Some (merged_array, channel_names))
  else
    do (if PyList.mem ".tif" (filetype a) then
          let* merged_array := assemble in
          export_flat_tif outdir (slidename a) channel_names (crop a)
                          (export_XML a) merged_array
        else if PyList.mem "ome.tif" (filetype a) then
          export_ome_tif outdir (slidename a) mosaic_channels
        else if PyList.mem "ome.zarr" (filetype a) then
          let* merged_array := assemble in
          export_ome_zarr E outdir (slidename a) channel_names merged_array
        else ret tt) then
    do cleanup_temp then
    ret None.

(** The events up to the channel selection of a run that gets there. *)
Definition prelude_events (E : env) (a : stitch_args) (slide : reader) (cid : Z)
  : list event :=
  [EReadSlide (input_dir a) (pattern a); EAxisFlip;
   EAlign slide cid (filter_sigma a) (max_shift a)] ++ qc_events E a.

(** The write of the tile positions, when it happens. *)
Definition position_events (E : env) (a : stitch_args) : list event :=
  if PyList.mem "return_array" (filetype a) then []
  else if return_tile_positions a
       then [EWrite (PyStr.path_join (abspath E (outdir a))
                       (slidename a +:+ "_tile_positions.tsv"))]
       else [].

(** The cut-offs of the whole-image rescale are defined for a channel. *)
Definition cutoffs_defined (mode : rescale_mode) (range : range_spec)
    (ids : list (Z * percentiles)) (ch : Z) : Prop :=
  mode = RescaleFullImage ->
  is_ok (match range with
         | RangeDict _ => PyDict.getitem ids ch
         | RangeTuple r => Ok r
         end) = true.

(** The files the flat TIFF exporter writes, in order. *)
Definition flat_tif_events (outdir slidename : string) (names : list string)
    (crop : crop_spec) (xml : bool) : list event :=
  map (fun c => EWrite (PyStr.path_join outdir (tif_name slidename (is_cropped crop) c)))
      names
  ++ (if xml then [EWrite (PyStr.path_join outdir (slidename +:+ ".XML"))] else []).

(** The removal, at the end of a run, of a temporary directory that an
    earlier call left recorded in the global. *)
Definition leftover_cleanup (w : world) : list event :=
  match TEMP_DIR_NAME w with
  | Some t => [ECleanupTemp t]
  | None => []
  end.

(** [cur] is [base] repeated a whole number of times. *)
Definition repeats_of (base cur : list string) : Prop :=
  (exists m, length cur = (m * length base)%nat) /\
  forall j, (j < length cur)%nat -> cur !! j = base !! (j mod length base)%nat.

(** An event that creates a directory. *)
Definition is_makedirs (e : event) : Prop := exists p, e = EMakedirs p.

(* ===================================================================== *)
(** ** Lemmas on the primitives *)
(* ===================================================================== *)

Ltac unfold_M :=
  unfold bind, lift, emit, ret, raise, Fs.write_file, Fs.isdir, Fs.exists_,
    Fs.makedirs in *; simpl in *.

(** A step that succeeds hands its result to the rest of the block. *)
Lemma bind_ok {A B} (c : M A) (k : A -> M B) (w w1 : world) (x : A) :
  c w = (Ok x, w1) -> bind c k w = k x w1.
Proof. intros H. unfold bind. now rewrite H. Qed.

Lemma index_from_not_mem x l i :
  PyList.mem x l = false ->
  PyList.index_from i x l = Raise (ValueError (x +:+ " is not in list")).
Proof.
  revert i. induction l as [|y r IH]; intros i H; simpl in *; [reflexivity|].
  apply orb_false_iff in H as [Hy Hr].
  rewrite String.eqb_sym, Hy. now apply IH.
Qed.

Lemma map_outcome_raise {A B} (f : A -> outcome B) (l : list A) (x : A) :
  In x l -> is_ok (f x) = false -> is_ok (map_outcome f l) = false.
Proof.
  induction l as [|y r IH]; simpl; [tauto|].
  intros [->|Hin] Hx.
  - destruct (f x); [discriminate | reflexivity].
  - destruct (f y); [|reflexivity].
    specialize (IH Hin Hx). destruct (map_outcome f r); [discriminate | reflexivity].
Qed.

(** A failing list comprehension of [index] lookups fails with the
    [ValueError] of one of its elements. *)
Lemma map_index_raise (vals : list string) (l : list string) :
  is_ok (map_outcome (fun c => PyList.index c vals) l) = false ->
  exists c, In c l /\ PyList.mem c vals = false /\
    map_outcome (fun c => PyList.index c vals) l
    = Raise (ValueError (c +:+ " is not in list")).
Proof.
  induction l as [|y r IH]; simpl; [discriminate|].
  destruct (PyList.mem y vals) eqn:Hm.
  - destruct (PyList.index y vals) eqn:Hi.
    + destruct (map_outcome _ r) eqn:Hr; [discriminate|].
      intros _. destruct (IH eq_refl) as (c & Hc & Hn & He).
      exists c. repeat split; auto; congruence.
    + intros _. exfalso.
      unfold PyList.index in Hi. clear IH.
      assert (forall i, is_ok (PyList.index_from i y vals) = true) as Hok.
      { clear Hi. induction vals as [|v vs IHv]; simpl in *; [discriminate|].
        intros i. rewrite String.eqb_sym. destruct (String.eqb y v); [reflexivity|].
        now apply IHv. }
      specialize (Hok 0%Z). rewrite Hi in Hok. discriminate.
  - intros _. exists y. repeat split; auto.
    unfold PyList.index. now rewrite index_from_not_mem.
Qed.

(* ===================================================================== *)
(** ** [generate_stitched]: configuration errors and exporter selection *)
(* ===================================================================== *)

(** C1 (as the code behaves): with [filetype = [".tif", "ome.zarr"]] one
    call writes the flat TIFFs and the XML sidecar and returns, and no
    OME-Zarr store exists afterwards; with [["ome.tif", "ome.zarr"]] only
    the pyramidal TIFF is written.  The exporters are the arms of one
    [if/elif] chain, so a call runs at most one of them. *)
Theorem C1_first_listed_exporter_only :
  let r := generate_stitched Demo.E (Demo.with_filetype [".tif"; "ome.zarr"]) Demo.w0 in
  let r' := generate_stitched Demo.E (Demo.with_filetype ["ome.tif"; "ome.zarr"]) Demo.w0 in
  r.1 = Ok None /\
  In (EWrite "/out/S1_DAPI.tif") (trace r.2) /\
  fs r.2 !! "/out/S1.ome.zarr" = None /\
  ~ In (EWrite "/out/S1.ome.zarr") (trace r.2) /\
  r'.1 = Ok None /\
  fs r'.2 !! "/out/S1.ome.tiff" = Some (File (COmeTiff [0%Z; 1%Z])) /\
  fs r'.2 !! "/out/S1.ome.zarr" = None.
Proof.
  vm_compute. repeat split; try reflexivity.
  - auto 20.
  - intros H. repeat (destruct H as [H|H]; [discriminate H|]). exact H.
Qed.

(** C2: with [do_intensity_rescale = "partial"] and no exclusion list the
    run raises right after the reader is built: nothing is aligned,
    assembled or written.  The exception is the [SystemExit] of line 327
    whenever the per-channel rescale range (if one was given) resolves. *)
Theorem C2_partial_without_exclusion_exits (E : env) (a : stitch_args) (w : world) :
  do_intensity_rescale a = RescalePartial ->
  no_rescale_channel a = None ->
  exists e,
    generate_stitched E a w
    = (Raise e, logged w [EReadSlide (input_dir a) (pattern a)]) /\
    (is_ok (range_ids_of E a) = true -> e = SystemExit partial_exit_message).
Proof.
  intros Hmode Hnone.
  unfold generate_stitched, configure_partial. unfold_M.
  destruct (range_ids_of E a) as [ids|e]; simpl.
  - rewrite Hmode, Hnone. eexists; split; [reflexivity | auto].
  - eexists; split; [reflexivity | discriminate].
Qed.

Lemma C2_partial_without_exclusion_exits_witness :
  exists e,
    generate_stitched Demo.E (Demo.partial_args None) Demo.w0
    = (Raise e, logged Demo.w0 [EReadSlide "/in" "pat"]) /\
    (is_ok (range_ids_of Demo.E (Demo.partial_args None)) = true ->
     e = SystemExit partial_exit_message).
Proof.
  apply (C2_partial_without_exclusion_exits Demo.E (Demo.partial_args None) Demo.w0);
    reflexivity.
Defined.

(** C3 (as the code behaves): with [do_intensity_rescale = "partial"] and
    a non-empty exclusion list the first name is looked up with
    [channel_map.values().index], which raises [AttributeError]; no
    exclusion set is recorded and nothing is aligned. *)
Theorem C3_partial_with_exclusion_raises (E : env) (a : stitch_args) (w : world)
    (name : string) (names : list string) :
  do_intensity_rescale a = RescalePartial ->
  no_rescale_channel a = Some (name :: names) ->
  is_ok (range_ids_of E a) = true ->
  generate_stitched E a w
  = (Raise (AttributeError "'dict_values' object has no attribute 'index'"),
     logged w [EReadSlide (input_dir a) (pattern a)]).
Proof.
  intros Hmode Hsome Hids.
  unfold generate_stitched, configure_partial. unfold_M.
  destruct (range_ids_of E a) as [ids|e]; [|discriminate]. simpl.
  rewrite Hmode, Hsome. reflexivity.
Qed.

Lemma C3_partial_with_exclusion_raises_witness :
  generate_stitched Demo.E (Demo.partial_args (Some ["DAPI"])) Demo.w0
  = (Raise (AttributeError "'dict_values' object has no attribute 'index'"),
     logged Demo.w0 [EReadSlide "/in" "pat"]).
Proof.
  apply (C3_partial_with_exclusion_raises Demo.E (Demo.partial_args (Some ["DAPI"]))
           Demo.w0 "DAPI" []); reflexivity.
Defined.

(** Outside the partial mode lines 320-327 leave the reader as it is. *)
Lemma configure_partial_skip (E : env) (a : stitch_args) (slide : reader) :
  do_intensity_rescale a <> RescalePartial ->
  configure_partial E a slide = ret slide.
Proof.
  intros Hmode. unfold configure_partial.
  destruct (do_intensity_rescale a); congruence.
Qed.

(** C9, counterexample: with the default [plot_QC = True] and the unknown
    name [Cy5] in [channel_order] the run raises, but the two QC plots
    have been written to the output directory by then. *)
Lemma C9_counterexample :
  let r := generate_stitched Demo.E (Demo.reorder_args ["DAPI"; "Cy5"]) Demo.w0 in
  r.1 = Raise (ValueError "Cy5 is not in list") /\
  existsb writes_output (trace r.2) = true /\
  In (EPlotQC "plot_edge_scatter" "/out") (trace r.2).
Proof. vm_compute. repeat split; auto 10. Qed.

(** C9, amended: an unknown name in [channel_order] makes the run raise the
    [ValueError] of the name lookup once alignment and, when [plot_QC] is
    set, the QC plots are done; the tile positions, the mosaic assembly
    and every exporter come later and are not reached, and no file of the
    modelled file system is touched. *)
Theorem C9_unknown_channel_order_raises (E : env) (a : stitch_args) (w : world)
    (order : list string) (c : string) (ids : list (Z * percentiles)) (cid : Z) :
  channel_order a = Some order ->
  In c order ->
  PyList.mem c (PyDict.values (channel_map E)) = false ->
  do_intensity_rescale a <> RescalePartial ->
  range_ids_of E a = Ok ids ->
  PyList.index (stitching_channel a) (PyDict.values (channel_map E)) = Ok cid ->
  exists c',
    In c' order /\ PyList.mem c' (PyDict.values (channel_map E)) = false /\
    generate_stitched E a w
    = (Raise (ValueError (c' +:+ " is not in list")),
       logged w ([EReadSlide (input_dir a) (pattern a); EAxisFlip;
                  EAlign (plain_reader a ids) cid (filter_sigma a) (max_shift a)]
                 ++ qc_events E a)).
Proof.
  intros Horder Hin Hmem Hmode Hids Hcid.
  destruct (map_index_raise (PyDict.values (channel_map E)) order) as (c' & Hc' & Hm' & He).
  { apply (map_outcome_raise _ _ c Hin). unfold PyList.index.
    now rewrite index_from_not_mem. }
  exists c'. split; [exact Hc'|]. split; [exact Hm'|].
  unfold generate_stitched.
  erewrite bind_ok by reflexivity.
  rewrite Hids. erewrite bind_ok by reflexivity.
  rewrite (configure_partial_skip E a _ Hmode). erewrite bind_ok by reflexivity.
  erewrite bind_ok by reflexivity.
  rewrite Hcid. erewrite bind_ok by reflexivity.
  erewrite bind_ok by reflexivity.
  unfold select_channels. rewrite Horder, He.
  unfold qc_events, logged, plain_reader.
  destruct (rescale_range a); destruct (plot_QC a); unfold_M;
    rewrite <- ?app_assoc; reflexivity.
Qed.

Lemma C9_unknown_channel_order_raises_witness :
  exists c',
    In c' ["DAPI"; "Cy5"] /\
    PyList.mem c' (PyDict.values (channel_map Demo.E)) = false /\
    generate_stitched Demo.E (Demo.reorder_args ["DAPI"; "Cy5"]) Demo.w0
    = (Raise (ValueError (c' +:+ " is not in list")),
       logged Demo.w0
         ([EReadSlide "/in" "pat"; EAxisFlip;
           EAlign (plain_reader (Demo.reorder_args ["DAPI"; "Cy5"]) []) 0 0 30]
          ++ qc_events Demo.E (Demo.reorder_args ["DAPI"; "Cy5"]))).
Proof.
  apply (C9_unknown_channel_order_raises Demo.E (Demo.reorder_args ["DAPI"; "Cy5"])
           Demo.w0 ["DAPI"; "Cy5"] "Cy5" [] 0%Z).
  - reflexivity.
  - simpl. auto.
  - reflexivity.
  - discriminate.
  - reflexivity.
  - reflexivity.
Defined.

(* ===================================================================== *)
(** ** Flat TIFF names and the XML sidecar *)
(* ===================================================================== *)

Section StringFacts.

Lemma append_nil (b : string) : EmptyString +:+ b = b.
Proof. reflexivity. Qed.

Lemma append_cons (x : ascii) (a b : string) : String x a +:+ b = String x (a +:+ b).
Proof. reflexivity. Qed.

Lemma append_assoc (a b c : string) : (a +:+ b) +:+ c = a +:+ (b +:+ c).
Proof.
  induction a as [|x a IH]; [reflexivity|].
  rewrite !append_cons. now f_equal.
Qed.

Lemma startswith_append (m y : string) : PyStr.startswith m (m +:+ y) = true.
Proof.
  induction m as [|a m IH]; [reflexivity|].
  rewrite append_cons. simpl. now rewrite Ascii.eqb_refl, IH.
Qed.

(** An occurrence in the middle is found. *)
Lemma contains_middle (m x y : string) : PyStr.contains m (x +:+ m +:+ y) = true.
Proof.
  induction x as [|c x IH].
  - rewrite append_nil. destruct (m +:+ y) eqn:Hmy.
    + simpl. rewrite <- Hmy. now rewrite startswith_append.
    + cbn [PyStr.contains]. rewrite <- Hmy. now rewrite startswith_append.
  - rewrite append_cons. cbn [PyStr.contains]. rewrite IH. apply orb_true_r.
Qed.

(** A suffix that starts with a character foreign to [m] cannot complete
    a prefix match. *)
Lemma startswith_foreign_suffix (m base : string) (c : ascii) (t : string) :
  char_free c m = true ->
  PyStr.startswith m (base +:+ String c t) = PyStr.startswith m base.
Proof.
  revert base. induction m as [|a m IH]; intros base Hfree; simpl in *.
  - reflexivity.
  - apply andb_true_iff in Hfree as [Ha Hm].
    destruct base as [|b base].
    + rewrite append_nil. apply negb_true_iff in Ha. now rewrite Ha.
    + rewrite append_cons. now rewrite IH.
Qed.

(** ... and so adds no occurrence of [m]. *)
Lemma contains_foreign_suffix (m base : string) (c : ascii) (t : string) :
  char_free c m = true ->
  PyStr.contains m (String c t) = false ->
  PyStr.contains m (base +:+ String c t) = PyStr.contains m base.
Proof.
  intros Hfree Hno. induction base as [|b base IH].
  - rewrite append_nil, Hno.
    destruct m as [|a m]; [discriminate Hno | reflexivity].
  - rewrite append_cons. cbn [PyStr.contains]. rewrite IH.
    rewrite <- append_cons. now rewrite startswith_foreign_suffix.
Qed.

End StringFacts.

(** When is the crop marker part of a flat TIFF name. *)
Lemma tif_name_marker (slidename channel : string) (cropped : bool) :
  PyStr.contains crop_marker (tif_name slidename cropped channel)
  = cropped || PyStr.contains crop_marker (slidename +:+ "_" +:+ channel).
Proof.
  assert (Hsplit : forall suffix,
             slidename +:+ "_" +:+ channel +:+ suffix
             = (slidename +:+ "_" +:+ channel) +:+ suffix).
  { intros suffix. now rewrite !append_assoc. }
  unfold tif_name, crop_marker. destruct cropped; cbn [orb]; rewrite Hsplit.
  - apply (contains_middle "_cropped" _ ".tif").
  - apply (contains_foreign_suffix "_cropped" _ "."%char "tif"); reflexivity.
Qed.

Lemma save_channel_ok (outdir name : string) (merged : list plane) (i : nat) (p : plane)
    (w : world) :
  merged !! i = Some p ->
  save_channel outdir name merged i w
  = (Ok tt, mk_world (<[PyStr.path_join outdir name := File (CTiff (Np.astype_uint16 p))]> (fs w))
                     (trace w ++ [EWrite (PyStr.path_join outdir name)])
                     (TEMP_DIR_NAME w)).
Proof.
  intros Hi. unfold save_channel, PyList.getitem, bind, lift, Fs.write_file.
  now rewrite Hi.
Qed.

(** The loop that saves one image per channel. *)
Lemma save_loop (outdir : string) (name : string -> string) (merged : list plane)
    (names : list string) :
  forall (k : nat) (w : world),
    (k + length names <= length merged)%nat ->
    exists w',
      for_each (PyList.enumerate_from k names)
        (fun ic => save_channel outdir (name ic.2) merged ic.1) w = (Ok tt, w') /\
      trace w' = trace w ++ map (fun c => EWrite (PyStr.path_join outdir (name c))) names /\
      TEMP_DIR_NAME w' = TEMP_DIR_NAME w.
Proof.
  induction names as [|c names IH]; intros k w Hlen; simpl in Hlen.
  - exists w. simpl. unfold ret. now rewrite app_nil_r.
  - destruct (merged !! k) as [p|] eqn:Hk.
    2: { apply lookup_ge_None in Hk. lia. }
    cbn [PyList.enumerate_from for_each]. unfold bind at 1. cbn [fst snd].
    rewrite (save_channel_ok _ _ _ _ p _ Hk).
    edestruct (IH (S k)) as (w' & Hrun & Htr & Htmp); [lia|].
    exists w'. rewrite Hrun. split; [reflexivity|]. split; [|exact Htmp].
    rewrite Htr. cbn [trace map]. now rewrite <- app_assoc.
Qed.

(** C5, counterexample: a reader whose channel is named [cropped], no crop
    margins: the one flat TIFF written is [S1_cropped.tif], which contains
    the marker although the margins sum to zero. *)
Lemma C5_counterexample :
  let r := generate_stitched Demo.E_odd Demo.odd_args Demo.w0 in
  crop_sum (crop Demo.odd_args) = 0%Z /\
  r.1 = Ok None /\
  filter (fun e => bool_decide (writes_output e = true)) (trace r.2)
  = [ETempDir "/out/temp_mmap"; EWrite "/out/S1_cropped.tif"] /\
  PyStr.contains crop_marker "S1_cropped.tif" = true.
Proof. vm_compute. repeat split; reflexivity. Qed.

(** C5, amended: the flat TIFF exporter writes, in channel order, the files
    [{slide}_{channel}_cropped.tif] when the margins sum to a positive
    value and [{slide}_{channel}.tif] otherwise; so a written name
    contains the marker exactly when the result was cropped or
    [{slide}_{channel}] contains it already. *)
Theorem C5_flat_tif_names (outdir slidename : string) (names : list string)
    (crop : crop_spec) (xml : bool) (merged : ndarray3) (w : world) :
  (length names <= length merged)%nat ->
  exists w',
    export_flat_tif outdir slidename names crop xml merged w = (Ok tt, w') /\
    trace w' = trace w
               ++ map (fun c => EWrite (PyStr.path_join outdir
                                          (tif_name slidename (is_cropped crop) c))) names
               ++ (if xml then [EWrite (PyStr.path_join outdir (slidename +:+ ".XML"))]
                   else []) /\
    forall c, In c names ->
      PyStr.contains crop_marker (tif_name slidename (is_cropped crop) c)
      = is_cropped crop || PyStr.contains crop_marker (slidename +:+ "_" +:+ c).
Proof.
  intros Hlen.
  assert (Hnames : forall c, In c names ->
            PyStr.contains crop_marker (tif_name slidename (is_cropped crop) c)
            = is_cropped crop || PyStr.contains crop_marker (slidename +:+ "_" +:+ c)).
  { intros c _. apply tif_name_marker. }
  unfold export_flat_tif, is_cropped in *.
  destruct (0 <? crop_sum crop)%Z.
  - destruct (save_loop outdir (fun c => slidename +:+ "_" +:+ c +:+ "_cropped.tif")
                merged names 0 w) as (w1 & Hrun & Htr & _); [simpl; lia|].
    unfold PyList.enumerate, bind. rewrite Hrun.
    destruct xml.
    + eexists. split; [reflexivity|]. split; [|exact Hnames].
      simpl. rewrite Htr. now rewrite <- app_assoc.
    + eexists. split; [reflexivity|]. split; [|exact Hnames].
      rewrite Htr, app_nil_r. reflexivity.
  - destruct (save_loop outdir (fun c => slidename +:+ "_" +:+ c +:+ ".tif")
                merged names 0 w) as (w1 & Hrun & Htr & _); [simpl; lia|].
    unfold PyList.enumerate, bind. rewrite Hrun.
    destruct xml.
    + eexists. split; [reflexivity|]. split; [|exact Hnames].
      simpl. rewrite Htr. now rewrite <- app_assoc.
    + eexists. split; [reflexivity|]. split; [|exact Hnames].
      rewrite Htr, app_nil_r. reflexivity.
Qed.

Lemma C5_flat_tif_names_witness :
  exists w',
    export_flat_tif "/out" "S1" ["DAPI"] (mk_crop 1 0 0 0) false [[[1%Z]]] Demo.w0
    = (Ok tt, w') /\
    trace w' = trace Demo.w0
               ++ map (fun c => EWrite (PyStr.path_join "/out"
                                          (tif_name "S1" (is_cropped (mk_crop 1 0 0 0)) c)))
                      ["DAPI"]
               ++ [] /\
    forall c, In c ["DAPI"] ->
      PyStr.contains crop_marker (tif_name "S1" (is_cropped (mk_crop 1 0 0 0)) c)
      = is_cropped (mk_crop 1 0 0 0) || PyStr.contains crop_marker ("S1" +:+ "_" +:+ c).
Proof.
  apply (C5_flat_tif_names "/out" "S1" ["DAPI"] (mk_crop 1 0 0 0) false [[[1%Z]]] Demo.w0).
  simpl. lia.
Defined.

Lemma lookup_map {A B} (f : A -> B) (l : list A) (i : nat) :
  map f l !! i = option_map f (l !! i).
Proof.
  revert i. induction l as [|x l IH]; intros [|i]; simpl; auto.
Qed.

Lemma lookup_enumerate_from {A} (l : list A) (k i : nat) (x : A) :
  l !! i = Some x -> PyList.enumerate_from k l !! i = Some ((k + i)%nat, x).
Proof.
  revert k i. induction l as [|y l IH]; intros k [|i] H; simpl in *; try discriminate.
  - injection H as ->. now rewrite Nat.add_0_r.
  - rewrite (IH (S k) i H). now rewrite Nat.add_succ_r.
Qed.

Lemma length_enumerate_from {A} (l : list A) (k : nat) :
  length (PyList.enumerate_from k l) = length l.
Proof. revert k. induction l as [|y l IH]; intros k; simpl; auto. Qed.

Lemma image_paths_lookup (channels : list string) (slidename : string) (cropped : bool)
    (i : nat) (c : string) :
  channels !! i = Some c ->
  image_paths channels slidename cropped !! i = Some (tif_name slidename cropped c).
Proof.
  intros H. unfold image_paths, tif_name.
  destruct cropped; rewrite lookup_map, H; reflexivity.
Qed.

(** C6: [_write_xml] writes [{slidename}.XML] holding the document with
    root [BIAS], printed with four spaces per level and CRLF between
    lines.  The document lists one [channel] element per channel, with id
    [i+1] for the channel at position [i], and one [image] element per
    channel whose url is [{slide}_{channel}.tif], or
    [{slide}_{channel}_cropped.tif] when cropped, tagged with the same id.
    For channels [DAPI], [Alexa488] and slide [S1] the text is
    [sidecar_S1]. *)
Theorem C6_write_xml (path slidename : string) (channels : list string) (cropped : bool)
    (w : world) :
  _write_xml path channels slidename cropped w
  = (Ok tt,
     mk_world
       (<[PyStr.path_join path (slidename +:+ ".XML") :=
            File (CText (Yattag.indent "    " PyStr.crlf
                           (bias_document channels slidename cropped)))]> (fs w))
       (trace w ++ [EWrite (PyStr.path_join path (slidename +:+ ".XML"))])
       (TEMP_DIR_NAME w)) /\
  (exists chs imgs,
     bias_document channels slidename cropped
     = [ Yattag.Asis xml_header;
         Yattag.Elem "BIAS" [("version", "1.0")]
           [Yattag.Elem "channels" [] chs; Yattag.Elem "images" [] imgs] ] /\
     length chs = length channels /\
     length imgs = length channels /\
     forall i c, channels !! i = Some c ->
       chs !! i
       = Some (Yattag.Elem "channel" [("id", PyStr.str_of_nat (i + 1))]
                 [Yattag.Elem "name" [] [Yattag.Text c]]) /\
       imgs !! i
       = Some (Yattag.Elem "image" [("url", tif_name slidename cropped c)]
                 [Yattag.Elem "channel" [] [Yattag.Text (PyStr.str_of_nat (i + 1))]])) /\
  xml_text ["DAPI"; "Alexa488"] "S1" false = sidecar_S1.
Proof.
  split; [reflexivity|]. split; [|vm_compute; reflexivity].
  eexists _, _. split; [reflexivity|].
  assert (Hlen : length (image_paths channels slidename cropped) = length channels).
  { unfold image_paths. destruct cropped; apply length_map. }
  split; [|split].
  - unfold PyList.enumerate. now rewrite length_map, length_enumerate_from.
  - unfold PyList.enumerate. now rewrite length_map, length_enumerate_from.
  - intros i c Hi. unfold PyList.enumerate. split.
    + rewrite lookup_map, (lookup_enumerate_from _ 0 i c Hi). reflexivity.
    + rewrite lookup_map.
      rewrite (lookup_enumerate_from _ 0 i _ (image_paths_lookup _ _ _ _ _ Hi)).
      reflexivity.
Qed.

Lemma C6_write_xml_witness :
  exists chs imgs,
    bias_document ["DAPI"; "Alexa488"] "S1" false
    = [ Yattag.Asis xml_header;
        Yattag.Elem "BIAS" [("version", "1.0")]
          [Yattag.Elem "channels" [] chs; Yattag.Elem "images" [] imgs] ] /\
    chs !! 1%nat
    = Some (Yattag.Elem "channel" [("id", "2")]
              [Yattag.Elem "name" [] [Yattag.Text "Alexa488"]]) /\
    imgs !! 1%nat
    = Some (Yattag.Elem "image" [("url", "S1_Alexa488.tif")]
              [Yattag.Elem "channel" [] [Yattag.Text "2"]]).
Proof.
  destruct (C6_write_xml "/out" "S1" ["DAPI"; "Alexa488"] false Demo.w0)
    as (_ & (chs & imgs & Hdoc & _ & _ & Hat) & _).
  exists chs, imgs. split; [exact Hdoc|].
  exact (Hat 1%nat "Alexa488" eq_refl).
Defined.

(* ===================================================================== *)
(** ** [generate_thumbnail]: the example tiles *)
(* ===================================================================== *)

Lemma draw_length (rng : nat -> nat) (k : nat) :
  forall (j : nat) (pool : list string),
    (k <= length pool)%nat -> length (Random.draw rng j k pool) = k.
Proof.
  induction k as [|k IH]; intros j pool Hk; simpl; [reflexivity|].
  assert (Hlt : (rng j mod length pool < length pool)%nat).
  { apply Nat.mod_upper_bound. lia. }
  destruct (lookup_lt_is_Some_2 pool _ Hlt) as [x Hx].
  rewrite Hx. simpl. f_equal. apply IH.
  rewrite length_delete by eauto. lia.
Qed.

Lemma In_delete {A} (l : list A) (i : nat) (x : A) : In x (delete i l) -> In x l.
Proof.
  revert i. induction l as [|y l IH]; intros [|i]; simpl; auto.
  intros [->|H]; eauto.
Qed.

Lemma draw_subset (rng : nat -> nat) (k : nat) :
  forall (j : nat) (pool : list string) (x : string),
    In x (Random.draw rng j k pool) -> In x pool.
Proof.
  induction k as [|k IH]; intros j pool x; simpl; [tauto|].
  destruct (pool !! (rng j mod length pool)%nat) as [y|] eqn:Hy; simpl; [|tauto].
  intros [<-|Hin].
  - apply list_elem_of_In. eapply list_elem_of_lookup_2. exact Hy.
  - eapply In_delete, IH, Hin.
Qed.

(* ===================================================================== *)
(** ** [prepare_stitch_slurm_job]: wells, timepoints and the ceiling *)
(* ===================================================================== *)

Section Unique.

Import Sorted.



Lemma insert_unique_In (x y : string) (l : list string) :
  In y (Np.insert_unique x l) <-> y = x \/ In y l.
Proof.
  induction l as [|h l IH]; simpl.
  - intuition congruence.
  - destruct (String.compare x h) eqn:Hc; simpl.
    + apply String.compare_eq_iff in Hc. subst h. intuition congruence.
    + intuition congruence.
    + rewrite IH. intuition congruence.
Qed.





Lemma unique_In (x : string) (l : list string) : In x (Np.unique l) <-> In x l.
Proof.
  induction l as [|y l IH]; simpl; [tauto|].
  rewrite insert_unique_In, IH. intuition congruence.
Qed.

End Unique.





(* ===================================================================== *)
(** ** The OME-Zarr exporter *)
(* ===================================================================== *)

Lemma extend_colors_length (n : nat) :
  forall (fuel : nat) (colors : list string),
    (1 <= length colors)%nat ->
    (n <= fuel + length colors)%nat ->
    (n <= length (extend_colors fuel n colors))%nat.
Proof.
  induction fuel as [|fuel IH]; intros colors Hpos Hn; simpl.
  - lia.
  - destruct (Nat.ltb_spec (length colors) n) as [Hlt|Hge]; [|lia].
    apply IH; rewrite length_app; lia.
Qed.

Lemma colour_loop (colors : list string) (names : list string) :
  forall k : nat,
    (k + length names <= length colors)%nat ->
    exists chans,
      map_outcome (fun ic : nat * string =>
                     match PyList.getitem colors ic.1 with
                     | Ok c => Ok (ic.2, c, true)
                     | Raise e => Raise e
                     end)
                  (PyList.enumerate_from k names) = Ok chans /\
      map (fun c => c.1.1) chans = names.
Proof.
  induction names as [|x names IH]; intros k Hk; simpl in *.
  - exists []. split; reflexivity.
  - unfold PyList.getitem at 1.
    destruct (colors !! k) as [c|] eqn:Hc.
    2: { apply lookup_ge_None in Hc. lia. }
    destruct (IH (S k)) as (chans & Hrun & Hlab); [lia|].
    rewrite Hrun. eexists. split; [reflexivity|]. simpl. now rewrite Hlab.
Qed.

(** The colour palette always suffices: the channel metadata is built
    without an [IndexError], one entry per channel name. *)
Lemma omero_channels_ok (names : list string) :
  exists chans, omero_channels names = Ok chans /\ map (fun c => c.1.1) chans = names.
Proof.
  unfold omero_channels, PyList.enumerate. apply colour_loop. simpl.
  apply extend_colors_length; simpl; lia.
Qed.








(* ===================================================================== *)
(** ** Mosaic assembly and crop *)
(* ===================================================================== *)

Section Shapes.

Lemma plane_shape_map (x y : nat) (f : Z -> Z) (p : plane) :
  Np.plane_has_shape x y p = true ->
  Np.plane_has_shape x y (map (map f) p) = true.
Proof.
  unfold Np.plane_has_shape. intros H. apply andb_true_iff in H as [Hl Hr].
  apply andb_true_iff. split.
  - now rewrite length_map.
  - clear Hl. induction p as [|r p IH]; simpl in *; [reflexivity|].
    apply andb_true_iff in Hr as [Hr Hp].
    rewrite length_map, Hr. now apply IH.
Qed.

Lemma zeros_shape (n x y : nat) : Np.has_shape n x y (Np.zeros n x y) = true.
Proof.
  unfold Np.has_shape, Np.zeros. rewrite repeat_length, Nat.eqb_refl. simpl.
  apply forallb_forall. intros p Hp. apply repeat_spec in Hp. subst p.
  unfold Np.plane_has_shape. rewrite repeat_length, Nat.eqb_refl. simpl.
  apply forallb_forall. intros r Hr. apply repeat_spec in Hr. subst r.
  rewrite repeat_length. apply Nat.eqb_refl.
Qed.

Lemma forallb_insert {A} (P : A -> bool) (l : list A) (i : nat) (v : A) :
  forallb P l = true -> P v = true -> forallb P (<[i := v]> l) = true.
Proof.
  revert i. induction l as [|a l IH]; intros [|i] Hl Hv; simpl in *; auto.
  - apply andb_true_iff in Hl as [_ Hl]. now rewrite Hv.
  - apply andb_true_iff in Hl as [Ha Hl]. rewrite Ha. now apply IH.
Qed.

Lemma has_shape_insert (n x y : nat) (a : list plane) (i : nat) (p : plane) :
  Np.has_shape n x y a = true ->
  Np.plane_has_shape x y p = true ->
  Np.has_shape n x y (<[i := p]> a) = true.
Proof.
  unfold Np.has_shape. intros H Hp. apply andb_true_iff in H as [Hl Hf].
  apply andb_true_iff. split.
  - now rewrite length_insert.
  - now apply forallb_insert.
Qed.

Lemma setitem_plane_ok (n x y : nat) (a : list plane) (i : nat) (p : plane) :
  Np.has_shape n x y a = true ->
  (i < n)%nat ->
  Np.plane_has_shape x y p = true ->
  Np.setitem_plane x y a i p = Ok (<[i := Np.astype_uint16 p]> a) /\
  Np.has_shape n x y (<[i := Np.astype_uint16 p]> a) = true.
Proof.
  intros Ha Hi Hp. unfold Np.setitem_plane.
  assert (length a = n) as Hn.
  { unfold Np.has_shape in Ha. apply andb_true_iff in Ha as [Hl _].
    now apply Nat.eqb_eq in Hl. }
  destruct (Nat.leb_spec (length a) i) as [Hle|_]; [lia|].
  rewrite Hp. split; [reflexivity|].
  apply has_shape_insert; [exact Ha|]. now apply plane_shape_map.
Qed.

End Shapes.

Section AssembleFacts.

Variable E : env.
Variable mode : rescale_mode.
Variable range : range_spec.
Variable ids : list (Z * percentiles).
Variables n x y : nat.

(** [assemble_channel] returns planes of the shape of the mosaic. *)
Hypothesis planes_fit : forall c, Np.plane_has_shape x y (assemble_channel E c) = true.

Lemma assemble_step_ok (mosaics : list plane) (i : nat) (c : Z) (w : world) :
  Np.has_shape n x y mosaics = true ->
  (i < n)%nat ->
  (mode = RescaleFullImage ->
   is_ok (match range with
          | RangeDict _ => PyDict.getitem ids c
          | RangeTuple r => Ok r
          end) = true) ->
  exists mosaics',
    assemble_step E mode range ids x y mosaics (i, c) w
    = (Ok mosaics', logged w [EAssemble c]) /\
    Np.has_shape n x y mosaics' = true.
Proof.
  intros Hshape Hi Hcut.
  destruct (setitem_plane_ok n x y mosaics i (assemble_channel E c) Hshape Hi
              (planes_fit c)) as [Hset Hshape1].
  unfold assemble_step. cbn [fst snd].
  erewrite bind_ok by reflexivity.
  rewrite Hset. erewrite bind_ok by reflexivity.
  destruct mode; try (eexists; split; [reflexivity | exact Hshape1]).
  specialize (Hcut eq_refl).
  destruct (match range with
            | RangeDict _ => PyDict.getitem ids c
            | RangeTuple r => Ok r
            end) as [cut|]; [|discriminate].
  erewrite bind_ok by reflexivity.
  assert (Hcur : <[i := Np.astype_uint16 (assemble_channel E c)]> mosaics !! i
                 = Some (Np.astype_uint16 (assemble_channel E c))).
  { apply list_lookup_insert_eq.
    unfold Np.has_shape in Hshape. apply andb_true_iff in Hshape as [Hl _].
    apply Nat.eqb_eq in Hl. lia. }
  unfold PyList.getitem. rewrite Hcur. erewrite bind_ok by reflexivity.
  set (cur := Np.astype_uint16 (assemble_channel E c)) in *.
  assert (Hfit : Np.plane_has_shape x y cur = true).
  { apply plane_shape_map. apply planes_fit. }
  destruct (setitem_plane_ok n x y _ i (map (map (rescale_pixel E cut cur)) cur)
              Hshape1 Hi (plane_shape_map _ _ _ _ Hfit)) as [Hset2 Hshape2].
  unfold lift. rewrite Hset2. eexists. split; [reflexivity | exact Hshape2].
Qed.

Lemma assemble_loop_ok (channels : list Z) :
  forall (k : nat) (mosaics : list plane) (w : world),
    Np.has_shape n x y mosaics = true ->
    (k + length channels <= n)%nat ->
    (forall c, In c channels -> mode = RescaleFullImage ->
       is_ok (match range with
              | RangeDict _ => PyDict.getitem ids c
              | RangeTuple r => Ok r
              end) = true) ->
    exists mosaics',
      fold_M (assemble_step E mode range ids x y) (PyList.enumerate_from k channels)
             mosaics w
      = (Ok mosaics', logged w (map EAssemble channels)) /\
      Np.has_shape n x y mosaics' = true.
Proof.
  induction channels as [|c channels IH]; intros k mosaics w Hshape Hk Hcut;
    cbn [PyList.enumerate_from fold_M].
  - exists mosaics. split; [|exact Hshape].
    unfold ret, logged. simpl. rewrite app_nil_r. now destruct w.
  - simpl in Hk.
    destruct (assemble_step_ok mosaics k c w Hshape ltac:(lia)
                (Hcut c (or_introl eq_refl))) as (m1 & Hstep & Hshape1).
    rewrite (bind_ok _ _ _ _ _ Hstep).
    destruct (IH (S k) m1 (logged w [EAssemble c]) Hshape1 ltac:(lia))
      as (m2 & Hloop & Hshape2).
    { intros c' Hc'. apply Hcut. now right. }
    exists m2. split; [|exact Hshape2].
    rewrite Hloop. unfold logged. simpl. now rewrite <- app_assoc.
Qed.

End AssembleFacts.

Lemma slice_length {A} (l : list A) (s e : Z) :
  (0 <= s <= e)%Z ->
  (e <= Z.of_nat (length l))%Z ->
  Z.of_nat (length (Np.slice s e l)) = (e - s)%Z.
Proof.
  intros Hs He. unfold Np.slice, Np.slice_bound.
  destruct (Z.ltb_spec s 0); [lia|]. destruct (Z.ltb_spec e 0); [lia|].
  rewrite length_take, length_drop. lia.
Qed.

Lemma slice_Forall {A} (P : A -> Prop) (l : list A) (s e : Z) :
  Forall P l -> Forall P (Np.slice s e l).
Proof. intros H. unfold Np.slice. now apply Forall_take, Forall_drop. Qed.

Lemma plane_shape_inv (x y : nat) (p : plane) :
  Np.plane_has_shape x y p = true ->
  length p = x /\ Forall (fun r => length r = y) p.
Proof.
  unfold Np.plane_has_shape. intros H. apply andb_true_iff in H as [Hl Hr].
  split; [now apply Nat.eqb_eq|].
  apply Forall_forall. intros r Hr'. apply list_elem_of_In in Hr'.
  rewrite forallb_forall in Hr. now apply Nat.eqb_eq, Hr.
Qed.

(** The shape of the crop of an array of shape [(n, x, y)] whose window is
    not empty. *)
Lemma crop_mosaic_shape (n x y : nat) (c : crop_spec) (mosaics : list plane) :
  Np.has_shape n x y mosaics = true ->
  (0 <= crop_top c)%Z -> (0 <= crop_bottom c)%Z ->
  (0 <= crop_left c)%Z -> (0 <= crop_right c)%Z ->
  (0 < crop_sum c)%Z ->
  (crop_top c * 20 < Z.of_nat x - crop_bottom c * 20)%Z ->
  (crop_left c * 20 < Z.of_nat y - crop_right c * 20)%Z ->
  length (crop_mosaic c x y mosaics) = n /\
  forall p, In p (crop_mosaic c x y mosaics) ->
    Z.of_nat (length p) = (Z.of_nat x - crop_top c * 20 - crop_bottom c * 20)%Z /\
    forall r, In r p ->
      Z.of_nat (length r) = (Z.of_nat y - crop_left c * 20 - crop_right c * 20)%Z.
Proof.
  intros Hshape Ht Hb Hl Hr Hsum Hrows Hcols.
  unfold Np.has_shape in Hshape. apply andb_true_iff in Hshape as [Hn Hplanes].
  apply Nat.eqb_eq in Hn. rewrite forallb_forall in Hplanes.
  unfold crop_mosaic, scaled, cropping_factor, Np.slice3.
  destruct (Z.ltb_spec 0 (crop_sum c)) as [_|]; [|lia].
  split; [now rewrite length_map|].
  intros p Hp. apply in_map_iff in Hp as (p0 & <- & Hp0).
  destruct (plane_shape_inv x y p0 (Hplanes p0 Hp0)) as [Hx Hy].
  split.
  - rewrite length_map, slice_length; lia.
  - intros r Hin. apply in_map_iff in Hin as (r0 & <- & Hr0).
    assert (length r0 = y) as Hr0y.
    { pose proof (slice_Forall _ p0 (crop_top c * 20)
                    (Z.of_nat x - crop_bottom c * 20) Hy) as Hall.
      rewrite Forall_forall in Hall. apply Hall. now apply list_elem_of_In. }
    rewrite slice_length; lia.
Qed.

(** C4: when [assemble_channel] yields planes of the mosaic shape
    [(height, width)] and the crop margins are non-negative, sum to a
    positive value and leave a non-empty window, [_assemble_mosaic]
    returns an array in which every channel plane has
    [height - top*20 - bottom*20] rows and every row
    [width - left*20 - right*20] pixels. *)
Theorem C4_cropped_shape (E : env) (mode : rescale_mode) (range : range_spec)
    (ids : list (Z * percentiles)) (outdir : string) (channels mosaic_channels : list Z)
    (height width : nat) (c : crop_spec) (w : world) :
  (forall ch, Np.plane_has_shape height width (assemble_channel E ch) = true) ->
  (length channels <= length mosaic_channels)%nat ->
  (forall ch, In ch channels -> mode = RescaleFullImage ->
     is_ok (match range with
            | RangeDict _ => PyDict.getitem ids ch
            | RangeTuple r => Ok r
            end) = true) ->
  (0 <= crop_top c)%Z -> (0 <= crop_bottom c)%Z ->
  (0 <= crop_left c)%Z -> (0 <= crop_right c)%Z ->
  (0 < crop_sum c)%Z ->
  (crop_top c * 20 < Z.of_nat height - crop_bottom c * 20)%Z ->
  (crop_left c * 20 < Z.of_nat width - crop_right c * 20)%Z ->
  exists cropped w',
    _assemble_mosaic E mode range ids outdir channels mosaic_channels (height, width) c w
    = (Ok cropped, w') /\
    length cropped = length mosaic_channels /\
    forall p, In p cropped ->
      Z.of_nat (length p)
      = (Z.of_nat height - crop_top c * 20 - crop_bottom c * 20)%Z /\
      forall r, In r p ->
        Z.of_nat (length r)
        = (Z.of_nat width - crop_left c * 20 - crop_right c * 20)%Z.
Proof.
  intros Hfit Hlen Hcut Ht Hb Hl Hr Hsum Hrows Hcols.
  unfold _assemble_mosaic. cbn [fst snd].
  erewrite bind_ok by reflexivity.
  edestruct (assemble_loop_ok E mode range ids (length mosaic_channels) height width
               Hfit channels 0 (Np.zeros (length mosaic_channels) height width))
    as (mosaics' & Hloop & Hshape);
    [apply zeros_shape | simpl; lia | exact Hcut |].
  unfold PyList.enumerate. erewrite bind_ok by exact Hloop.
  eexists _, _. split; [reflexivity|].
  now apply crop_mosaic_shape.
Qed.

Lemma C4_cropped_shape_witness :
  exists cropped w',
    _assemble_mosaic Demo.E RescaleFullImage (RangeTuple (1%Q, 99%Q)) [] "/out"
                     [0%Z; 1%Z] [0%Z; 1%Z] (45%nat, 30%nat) (mk_crop 1 1 1 0) Demo.w0
    = (Ok cropped, w') /\
    length cropped = length [0%Z; 1%Z] /\
    forall p, In p cropped ->
      Z.of_nat (length p) = (Z.of_nat 45 - 1 * 20 - 1 * 20)%Z /\
      forall r, In r p -> Z.of_nat (length r) = (Z.of_nat 30 - 1 * 20 - 0 * 20)%Z.
Proof.
  apply (C4_cropped_shape Demo.E RescaleFullImage (RangeTuple (1%Q, 99%Q)) [] "/out"
           [0%Z; 1%Z] [0%Z; 1%Z] 45 30 (mk_crop 1 1 1 0) Demo.w0).
  - intros ch. vm_compute. reflexivity.
  - simpl. lia.
  - intros ch _ _. reflexivity.
  - simpl. lia.
  - simpl. lia.
  - simpl. lia.
  - simpl. lia.
  - vm_compute. reflexivity.
  - simpl. lia.
  - simpl. lia.
Defined.

(* ===================================================================== *)
(** ** Supporting facts *)
(* ===================================================================== *)

(** A bottom margin larger than the image makes the stop of the slice
    negative, and Python then counts it from the end: 100 rows cropped
    with [bottom = 6] keep 80 rows.  This is why the shape formula needs
    the window hypothesis. *)
Example crop_margin_beyond_height :
  length (crop_mosaic (mk_crop 0 6 0 0) 100 1 [repeat [0%Z] 100]) = 1%nat /\
  map (fun p : plane => length p) (crop_mosaic (mk_crop 0 6 0 0) 100 1 [repeat [0%Z] 100])
  = [80%nat].
Proof. vm_compute. split; reflexivity. Qed.

(** A whole run with [filetype = ["ome.zarr"]], twice: the second run
    removes the store of the first and leaves the same store. *)
Example zarr_rerun_demo :
  let a := Demo.with_filetype ["ome.zarr"] in
  let r1 := generate_stitched Demo.E a Demo.w0 in
  let r2 := generate_stitched Demo.E a r1.2 in
  r1.1 = Ok None /\ r2.1 = Ok None /\
  ~ In (ERmtree "/out/S1.ome.zarr") (trace r1.2) /\
  In (ERmtree "/out/S1.ome.zarr") (trace r2.2) /\
  fs r2.2 !! "/out/S1.ome.zarr" = fs r1.2 !! "/out/S1.ome.zarr".
Proof.
  vm_compute. repeat split; try reflexivity.
  - intros H. repeat (destruct H as [H|H]; [discriminate H|]). exact H.
  - auto 40.
Qed.

Lemma map_outcome_In {A B} (f : A -> outcome B) (l : list A) (ys : list B) :
  map_outcome f l = Ok ys ->
  forall y, In y ys <-> exists x, In x l /\ f x = Ok y.
Proof.
  revert ys. induction l as [|x l IH]; intros ys; simpl.
  - intros [= <-] y. simpl. split; [tauto | intros (x & [] & _)].
  - destruct (f x) as [y0|] eqn:Hx; [|discriminate].
    destruct (map_outcome f l) as [ys0|]; [|discriminate].
    intros [= <-] y. simpl. rewrite (IH ys0 eq_refl y). split.
    + intros [<-|(x' & Hin & Hf)]; eauto.
    + intros (x' & [<-|Hin] & Hf); [left; congruence | right; eauto].
Qed.

(** The wells are exactly the texts matched by [Row.._Well..] in the
    entries of the directory, [.DS_Store] apart. *)
Lemma find_wells_spec (E : env) (p : string) (files wells : list string) :
  listdir E p = Some files ->
  find_wells E p = Ok wells ->
  forall x, In x wells <->
    exists f, In f files /\ f <> ".DS_Store" /\ Re.search Re.well_re f = Some x.
Proof.
  intros Hls. unfold find_wells, os_listdir. rewrite Hls.
  destruct (map_outcome _ _) as [ws|] eqn:Hws; [|discriminate].
  intros [= <-] x. rewrite unique_In, (map_outcome_In _ _ _ Hws).
  assert (Hkeep : forall f, negb (PyList.mem f [".DS_Store"]) = true <-> f <> ".DS_Store").
  { intros f. simpl. rewrite orb_false_r, negb_true_iff.
    destruct (String.eqb_spec f ".DS_Store"); split; congruence. }
  split.
  - intros (f & Hf & Hm). exists f.
    apply List.filter_In in Hf as [Hf Hk]. split; [exact Hf|]. split.
    + now apply Hkeep.
    + destruct (Re.search Re.well_re f); simpl in Hm; congruence.
  - intros (f & Hf & Hne & Hm). exists f. split.
    + apply List.filter_In. split; [exact Hf | now apply Hkeep].
    + now rewrite Hm.
Qed.

(* ===================================================================== *)
(** ** [generate_stitched]: the run as a whole *)
(* ===================================================================== *)

(** Up to the channel selection a run that meets no configuration error
    only builds the reader, flips the axis, aligns and plots. *)
Lemma stitch_reaches_selection (E : env) (a : stitch_args) (w : world)
    (ids : list (Z * percentiles)) (slide : reader) (cid : Z) (chs : list Z) :
  range_ids_of E a = Ok ids ->
  configure_partial E a (plain_reader a ids) = ret slide ->
  PyList.index (stitching_channel a) (PyDict.values (channel_map E)) = Ok cid ->
  select_channels E a (PyDict.keys (channel_map E)) = Ok chs ->
  generate_stitched E a w
  = after_selection E a ids chs (logged w (prelude_events E a slide cid)).
Proof.
  intros Hids Hconf Hcid Hchs.
  unfold generate_stitched, after_selection, prelude_events, qc_events.
  erewrite bind_ok by reflexivity.
  rewrite Hids. erewrite bind_ok by reflexivity.
  unfold plain_reader in Hconf.
  destruct (rescale_range a);
    cbn [rd_path rd_pattern rd_overlap rd_rescale_range rd_do_rescale
         rd_WGAchannel rd_no_rescale_channel];
    rewrite Hconf;
    (erewrite bind_ok by reflexivity);
    (erewrite bind_ok by reflexivity);
    rewrite Hcid;
    (erewrite bind_ok by reflexivity);
    (erewrite bind_ok by reflexivity);
    destruct (plot_QC a);
    (erewrite bind_ok by reflexivity);
    rewrite Hchs;
    (erewrite bind_ok by reflexivity);
    unfold_M; unfold logged; cbn [fs trace TEMP_DIR_NAME];
    rewrite <- ?app_assoc; reflexivity.
Qed.

(** The assembly as a whole: the temporary directory is recorded in the
    global, every selected channel is assembled once, in order, and the
    result is the crop of an array of the shape of the mosaic. *)
Lemma assemble_mosaic_ok (E : env) (mode : rescale_mode) (range : range_spec)
    (ids : list (Z * percentiles)) (outdir : string) (channels mosaic_channels : list Z)
    (x y : nat) (c : crop_spec) (w : world) :
  (forall ch, Np.plane_has_shape x y (assemble_channel E ch) = true) ->
  (length channels <= length mosaic_channels)%nat ->
  (forall ch, In ch channels -> cutoffs_defined mode range ids ch) ->
  exists mosaics,
    Np.has_shape (length mosaic_channels) x y mosaics = true /\
    _assemble_mosaic E mode range ids outdir channels mosaic_channels (x, y) c w
    = (Ok (crop_mosaic c x y mosaics),
       mk_world (<[temp_location E outdir := Dir ∅]> (fs w))
                (trace w ++ ETempDir (temp_location E outdir) :: map EAssemble channels)
                (Some (temp_location E outdir))).
Proof.
  intros Hfit Hlen Hcut.
  unfold _assemble_mosaic. cbn [fst snd].
  erewrite bind_ok by reflexivity.
  edestruct (assemble_loop_ok E mode range ids (length mosaic_channels) x y
               Hfit channels 0 (Np.zeros (length mosaic_channels) x y))
    as (mosaics' & Hloop & Hshape);
    [apply zeros_shape | simpl; lia | exact Hcut |].
  exists mosaics'. split; [exact Hshape|].
  unfold PyList.enumerate. erewrite bind_ok by exact Hloop.
  unfold ret, logged. cbn [fs trace TEMP_DIR_NAME].
  now rewrite <- app_assoc.
Qed.

Lemma crop_mosaic_length (c : crop_spec) (x y : nat) (mosaics : list plane) :
  length (crop_mosaic c x y mosaics) = length mosaics.
Proof.
  unfold crop_mosaic, Np.slice3. destruct (0 <? crop_sum c)%Z; [apply length_map | reflexivity].
Qed.

Lemma has_shape_length (n x y : nat) (mosaics : list plane) :
  Np.has_shape n x y mosaics = true -> length mosaics = n.
Proof.
  unfold Np.has_shape. intros H. apply andb_true_iff in H as [Hl _].
  now apply Nat.eqb_eq.
Qed.

(** The flat TIFF exporter on an array with a plane for every channel
    name. *)
Lemma export_flat_tif_ok (outdir slidename : string) (names : list string)
    (crop : crop_spec) (xml : bool) (merged : list plane) (w : world) :
  (length names <= length merged)%nat ->
  exists w',
    export_flat_tif outdir slidename names crop xml merged w = (Ok tt, w') /\
    trace w' = trace w ++ flat_tif_events outdir slidename names crop xml /\
    TEMP_DIR_NAME w' = TEMP_DIR_NAME w.
Proof.
  intros Hlen. unfold export_flat_tif, flat_tif_events, is_cropped, tif_name.
  destruct (0 <? crop_sum crop)%Z.
  - destruct (save_loop outdir (fun c => slidename +:+ "_" +:+ c +:+ "_cropped.tif")
                merged names 0 w) as (w1 & Hrun & Htr & Htmp); [simpl; lia|].
    unfold PyList.enumerate. rewrite (bind_ok _ _ _ _ _ Hrun).
    destruct xml.
    + eexists. split; [reflexivity|]. cbn [trace TEMP_DIR_NAME]. split; [|exact Htmp].
      rewrite Htr. now rewrite <- app_assoc.
    + eexists. split; [reflexivity|]. split; [|exact Htmp].
      rewrite Htr, app_nil_r. reflexivity.
  - destruct (save_loop outdir (fun c => slidename +:+ "_" +:+ c +:+ ".tif")
                merged names 0 w) as (w1 & Hrun & Htr & Htmp); [simpl; lia|].
    unfold PyList.enumerate. rewrite (bind_ok _ _ _ _ _ Hrun).
    destruct xml.
    + eexists. split; [reflexivity|]. cbn [trace TEMP_DIR_NAME]. split; [|exact Htmp].
      rewrite Htr. now rewrite <- app_assoc.
    + eexists. split; [reflexivity|]. split; [|exact Htmp].
      rewrite Htr, app_nil_r. reflexivity.
Qed.

Lemma length_keys_values {K V} (d : list (K * V)) :
  length (PyDict.values d) = length (PyDict.keys d).
Proof. unfold PyDict.values, PyDict.keys. now rewrite !length_map. Qed.

(** The write of the tile positions. *)
Lemma positions_step (E : env) (a : stitch_args) (w : world) :
  exists w1,
    (if PyList.mem "return_array" (filetype a) then ret tt
     else if return_tile_positions a
          then Fs.write_file
                 (PyStr.path_join (abspath E (outdir a))
                    (slidename a +:+ "_tile_positions.tsv")) CPositions
          else ret tt) w = (Ok tt, w1) /\
    trace w1 = trace w ++ position_events E a /\
    TEMP_DIR_NAME w1 = TEMP_DIR_NAME w.
Proof.
  unfold position_events.
  destruct (PyList.mem "return_array" (filetype a)).
  - exists w. unfold ret. now rewrite app_nil_r.
  - destruct (return_tile_positions a).
    + eexists. split; [reflexivity|]. split; reflexivity.
    + exists w. unfold ret. now rewrite app_nil_r.
Qed.

(** The exporter stage with [".tif"] selected. *)
Lemma flat_tif_stage (E : env) (a : stitch_args) (w : world)
    (ids : list (Z * percentiles)) (chs : list Z) :
  (forall ch, Np.plane_has_shape (mosaic_shape E).1 (mosaic_shape E).2
                (assemble_channel E ch) = true) ->
  (length chs <= length (channel_map E))%nat ->
  (forall ch, In ch chs ->
     cutoffs_defined (do_intensity_rescale a) (rescale_range a) ids ch) ->
  PyList.mem "return_array" (filetype a) = false ->
  PyList.mem ".tif" (filetype a) = true ->
  exists w',
    after_selection E a ids chs w = (Ok None, w') /\
    trace w'
    = trace w ++ position_events E a
      ++ ETempDir (temp_location E (abspath E (outdir a))) :: map EAssemble chs
      ++ flat_tif_events (abspath E (outdir a)) (slidename a)
           (PyDict.values (channel_map E)) (crop a) (export_XML a)
      ++ [ECleanupTemp (temp_location E (abspath E (outdir a)))] /\
    TEMP_DIR_NAME w' = None.
Proof.
  intros Hfit Hlen Hcut Hra Htif.
  unfold after_selection.
  destruct (positions_step E a w) as (w1 & Hpos & Htr1 & Htmp1).
  rewrite (bind_ok _ _ _ _ _ Hpos). rewrite Hra, Htif.
  destruct (mosaic_shape E) as [x y] eqn:Hxy. cbn [fst snd] in Hfit.
  destruct (assemble_mosaic_ok E (do_intensity_rescale a) (rescale_range a) ids
              (abspath E (outdir a)) chs (PyDict.keys (channel_map E)) x y (crop a) w1)
    as (mosaics & Hshape & Hasm); [exact Hfit | | exact Hcut |].
  { unfold PyDict.keys. now rewrite length_map. }
  unfold bind at 1. unfold bind at 1. rewrite Hasm.
  destruct (export_flat_tif_ok (abspath E (outdir a)) (slidename a)
              (PyDict.values (channel_map E)) (crop a) (export_XML a)
              (crop_mosaic (crop a) x y mosaics)
              (mk_world (<[temp_location E (abspath E (outdir a)) := Dir ∅]> (fs w1))
                 (trace w1 ++ ETempDir (temp_location E (abspath E (outdir a)))
                    :: map EAssemble chs)
                 (Some (temp_location E (abspath E (outdir a))))))
    as (w2 & Hexp & Htr2 & Htmp2).
  { rewrite crop_mosaic_length, (has_shape_length _ _ _ _ Hshape).
    now rewrite length_keys_values. }
  rewrite Hexp. unfold bind at 1. unfold cleanup_temp at 1.
  cbn [TEMP_DIR_NAME] in Htmp2. rewrite Htmp2.
  eexists. split; [reflexivity|]. cbn [trace TEMP_DIR_NAME]. split; [|reflexivity].
  rewrite Htr2. cbn [trace]. rewrite Htr1.
  rewrite <- !app_assoc. reflexivity.
Qed.

(** X1: a run with [".tif"] in [filetype] (and no [return_array]) that
    meets no configuration error does, in this order: reader, axis flip,
    alignment, QC plots if asked, tile positions if asked, temporary
    directory, one assembly per selected channel, one TIFF per channel
    name, the XML sidecar if asked, removal of the temporary directory.
    It returns [None] and leaves the global [TEMP_DIR_NAME] unset. *)
Theorem X1_flat_tif_run (E : env) (a : stitch_args) (w : world)
    (ids : list (Z * percentiles)) (slide : reader) (cid : Z) (chs : list Z) :
  range_ids_of E a = Ok ids ->
  configure_partial E a (plain_reader a ids) = ret slide ->
  PyList.index (stitching_channel a) (PyDict.values (channel_map E)) = Ok cid ->
  select_channels E a (PyDict.keys (channel_map E)) = Ok chs ->
  (forall ch, Np.plane_has_shape (mosaic_shape E).1 (mosaic_shape E).2
                (assemble_channel E ch) = true) ->
  (length chs <= length (channel_map E))%nat ->
  (forall ch, In ch chs ->
     cutoffs_defined (do_intensity_rescale a) (rescale_range a) ids ch) ->
  PyList.mem "return_array" (filetype a) = false ->
  PyList.mem ".tif" (filetype a) = true ->
  exists w',
    generate_stitched E a w = (Ok None, w') /\
    trace w'
    = trace w ++ prelude_events E a slide cid ++ position_events E a
      ++ ETempDir (temp_location E (abspath E (outdir a))) :: map EAssemble chs
      ++ flat_tif_events (abspath E (outdir a)) (slidename a)
           (PyDict.values (channel_map E)) (crop a) (export_XML a)
      ++ [ECleanupTemp (temp_location E (abspath E (outdir a)))] /\
    TEMP_DIR_NAME w' = None.
Proof.
  intros Hids Hconf Hcid Hchs Hfit Hlen Hcut Hra Htif.
  rewrite (stitch_reaches_selection E a w ids slide cid chs Hids Hconf Hcid Hchs).
  destruct (flat_tif_stage E a (logged w (prelude_events E a slide cid)) ids chs
              Hfit Hlen Hcut Hra Htif) as (w' & Hrun & Htr & Htmp).
  exists w'. split; [exact Hrun|]. split; [|exact Htmp].
  rewrite Htr. unfold logged. cbn [trace]. now rewrite <- app_assoc.
Qed.

Lemma X1_flat_tif_run_witness :
  exists w',
    generate_stitched Demo.E (Demo.with_filetype [".tif"]) Demo.w0 = (Ok None, w') /\
    trace w'
    = trace Demo.w0
      ++ prelude_events Demo.E (Demo.with_filetype [".tif"])
           (plain_reader (Demo.with_filetype [".tif"]) []) 0
      ++ position_events Demo.E (Demo.with_filetype [".tif"])
      ++ ETempDir (temp_location Demo.E "/out") :: map EAssemble [0%Z; 1%Z]
      ++ flat_tif_events "/out" "S1" ["Alexa488"; "DAPI"] no_crop true
      ++ [ECleanupTemp (temp_location Demo.E "/out")] /\
    TEMP_DIR_NAME w' = None.
Proof.
  apply (X1_flat_tif_run Demo.E (Demo.with_filetype [".tif"]) Demo.w0 []
           (plain_reader (Demo.with_filetype [".tif"]) []) 0%Z [0%Z; 1%Z]).
  - reflexivity.
  - reflexivity.
  - reflexivity.
  - reflexivity.
  - intros ch. vm_compute. reflexivity.
  - simpl. lia.
  - intros ch _ Hmode. discriminate Hmode.
  - reflexivity.
  - reflexivity.
Defined.



(** X3: with [return_array] in [filetype] the run returns the assembled
    array, one plane per channel of the map, with the channel names; it
    writes no tile positions (whatever [return_tile_positions] says), runs
    no exporter and skips the final clean-up: the temporary directory stays
    recorded in the global [TEMP_DIR_NAME]. *)
Theorem X3_return_array_run (E : env) (a : stitch_args) (w : world)
    (ids : list (Z * percentiles)) (slide : reader) (cid : Z) (chs : list Z) :
  range_ids_of E a = Ok ids ->
  configure_partial E a (plain_reader a ids) = ret slide ->
  PyList.index (stitching_channel a) (PyDict.values (channel_map E)) = Ok cid ->
  select_channels E a (PyDict.keys (channel_map E)) = Ok chs ->
  (forall ch, Np.plane_has_shape (mosaic_shape E).1 (mosaic_shape E).2
                (assemble_channel E ch) = true) ->
  (length chs <= length (channel_map E))%nat ->
  (forall ch, In ch chs ->
     cutoffs_defined (do_intensity_rescale a) (rescale_range a) ids ch) ->
  PyList.mem "return_array" (filetype a) = true ->
  exists merged_array w',
    generate_stitched E a w
    = (Ok (Some (merged_array, PyDict.values (channel_map E))), w') /\
    length merged_array = length (channel_map E) /\
    trace w'
    = trace w ++ prelude_events E a slide cid
      ++ ETempDir (temp_location E (abspath E (outdir a))) :: map EAssemble chs /\
    TEMP_DIR_NAME w' = Some (temp_location E (abspath E (outdir a))).
Proof.
  intros Hids Hconf Hcid Hchs Hfit Hlen Hcut Hra.
  rewrite (stitch_reaches_selection E a w ids slide cid chs Hids Hconf Hcid Hchs).
  unfold after_selection. rewrite Hra. erewrite bind_ok by reflexivity.
  destruct (mosaic_shape E) as [x y] eqn:Hxy. cbn [fst snd] in Hfit.
  destruct (assemble_mosaic_ok E (do_intensity_rescale a) (rescale_range a) ids
              (abspath E (outdir a)) chs (PyDict.keys (channel_map E)) x y (crop a)
              (logged w (prelude_events E a slide cid)))
    as (mosaics & Hshape & Hasm); [exact Hfit | | exact Hcut |].
  { unfold PyDict.keys. now rewrite length_map. }
  rewrite (bind_ok _ _ _ _ _ Hasm). unfold ret.
  eexists _, _. split; [reflexivity|]. split; [|split; [|reflexivity]].
  - rewrite crop_mosaic_length, (has_shape_length _ _ _ _ Hshape).
    unfold PyDict.keys. now rewrite length_map.
  - unfold logged. cbn [trace]. now rewrite <- app_assoc.
Qed.

Lemma X3_return_array_run_witness :
  exists merged_array w',
    generate_stitched Demo.E (Demo.with_filetype ["return_array"; ".tif"]) Demo.w0
    = (Ok (Some (merged_array, PyDict.values (channel_map Demo.E))), w') /\
    length merged_array = length (channel_map Demo.E) /\
    trace w'
    = trace Demo.w0
      ++ prelude_events Demo.E (Demo.with_filetype ["return_array"; ".tif"])
           (plain_reader (Demo.with_filetype ["return_array"; ".tif"]) []) 0
      ++ ETempDir (temp_location Demo.E "/out") :: map EAssemble [0%Z; 1%Z] /\
    TEMP_DIR_NAME w' = Some (temp_location Demo.E "/out").
Proof.
  apply (X3_return_array_run Demo.E (Demo.with_filetype ["return_array"; ".tif"])
           Demo.w0 [] (plain_reader (Demo.with_filetype ["return_array"; ".tif"]) [])
           0%Z [0%Z; 1%Z]).
  - reflexivity.
  - reflexivity.
  - reflexivity.
  - reflexivity.
  - intros ch. vm_compute. reflexivity.
  - simpl. lia.
  - intros ch _ Hmode. discriminate Hmode.
  - reflexivity.
Defined.

(** The end of a run in which nothing was assembled. *)
Lemma cleanup_leftover (w : world) :
  exists w', cleanup_temp w = (Ok tt, w') /\
    trace w' = trace w ++ leftover_cleanup w /\ TEMP_DIR_NAME w' = None.
Proof.
  unfold cleanup_temp, leftover_cleanup.
  destruct (TEMP_DIR_NAME w) as [t|] eqn:Ht.
  - eexists. split; [reflexivity|]. split; reflexivity.
  - exists w. split; [reflexivity|]. split; [now rewrite app_nil_r | exact Ht].
Qed.

(** X4: when ["ome.tif"] is the exporter that runs, the mosaic is never
    assembled: the run writes the tile positions (if asked) and
    [{slidename}.ome.tiff] and nothing else, whatever [crop] and
    [do_intensity_rescale] are, so neither the crop nor the whole-image
    rescale has any effect on this output. *)
Theorem X4_ome_tif_run (E : env) (a : stitch_args) (w : world)
    (ids : list (Z * percentiles)) (slide : reader) (cid : Z) (chs : list Z) :
  range_ids_of E a = Ok ids ->
  configure_partial E a (plain_reader a ids) = ret slide ->
  PyList.index (stitching_channel a) (PyDict.values (channel_map E)) = Ok cid ->
  select_channels E a (PyDict.keys (channel_map E)) = Ok chs ->
  PyList.mem "return_array" (filetype a) = false ->
  PyList.mem ".tif" (filetype a) = false ->
  PyList.mem "ome.tif" (filetype a) = true ->
  exists w',
    generate_stitched E a w = (Ok None, w') /\
    trace w'
    = trace w ++ prelude_events E a slide cid ++ position_events E a
      ++ [EWrite (PyStr.path_join (abspath E (outdir a)) (slidename a +:+ ".ome.tiff"))]
      ++ leftover_cleanup w /\
    TEMP_DIR_NAME w' = None.
Proof.
  intros Hids Hconf Hcid Hchs Hra Htif Home.
  rewrite (stitch_reaches_selection E a w ids slide cid chs Hids Hconf Hcid Hchs).
  unfold after_selection.
  destruct (positions_step E a (logged w (prelude_events E a slide cid)))
    as (w1 & Hpos & Htr1 & Htmp1).
  rewrite (bind_ok _ _ _ _ _ Hpos). rewrite Hra, Htif, Home.
  unfold export_ome_tif. erewrite bind_ok by reflexivity.
  match goal with
  | |- context [bind cleanup_temp _ ?w0] =>
      destruct (cleanup_leftover w0) as (w2 & Hclean & Htr2 & Htmp2)
  end.
  rewrite (bind_ok _ _ _ _ _ Hclean). unfold ret.
  exists w2. split; [reflexivity|]. split; [|exact Htmp2].
  rewrite Htr2. unfold leftover_cleanup. cbn [trace TEMP_DIR_NAME].
  rewrite Htmp1, Htr1. unfold logged. cbn [trace TEMP_DIR_NAME].
  rewrite <- !app_assoc. reflexivity.
Qed.

Lemma X4_ome_tif_run_witness :
  exists w',
    generate_stitched Demo.E (Demo.with_filetype ["ome.tif"]) Demo.w0 = (Ok None, w') /\
    trace w'
    = trace Demo.w0
      ++ prelude_events Demo.E (Demo.with_filetype ["ome.tif"])
           (plain_reader (Demo.with_filetype ["ome.tif"]) []) 0
      ++ position_events Demo.E (Demo.with_filetype ["ome.tif"])
      ++ [EWrite (PyStr.path_join "/out" ("S1" +:+ ".ome.tiff"))]
      ++ leftover_cleanup Demo.w0 /\
    TEMP_DIR_NAME w' = None.
Proof.
  apply (X4_ome_tif_run Demo.E (Demo.with_filetype ["ome.tif"]) Demo.w0 []
           (plain_reader (Demo.with_filetype ["ome.tif"]) []) 0%Z [0%Z; 1%Z]);
    reflexivity.
Defined.

(** X5: a [filetype] list that names none of [return_array], [.tif],
    [ome.tif], [ome.zarr] (for instance the spellings [.ome.zarr] and
    [.ome.tif] of the docstring) makes the run align and write the tile
    positions, and then end normally without any image output. *)
Theorem X5_unrecognised_filetype_exports_nothing (E : env) (a : stitch_args) (w : world)
    (ids : list (Z * percentiles)) (slide : reader) (cid : Z) (chs : list Z) :
  range_ids_of E a = Ok ids ->
  configure_partial E a (plain_reader a ids) = ret slide ->
  PyList.index (stitching_channel a) (PyDict.values (channel_map E)) = Ok cid ->
  select_channels E a (PyDict.keys (channel_map E)) = Ok chs ->
  PyList.mem "return_array" (filetype a) = false ->
  PyList.mem ".tif" (filetype a) = false ->
  PyList.mem "ome.tif" (filetype a) = false ->
  PyList.mem "ome.zarr" (filetype a) = false ->
  exists w',
    generate_stitched E a w = (Ok None, w') /\
    trace w'
    = trace w ++ prelude_events E a slide cid ++ position_events E a
      ++ leftover_cleanup w /\
    TEMP_DIR_NAME w' = None.
Proof.
  intros Hids Hconf Hcid Hchs Hra Htif Home Hzarr.
  rewrite (stitch_reaches_selection E a w ids slide cid chs Hids Hconf Hcid Hchs).
  unfold after_selection.
  destruct (positions_step E a (logged w (prelude_events E a slide cid)))
    as (w1 & Hpos & Htr1 & Htmp1).
  rewrite (bind_ok _ _ _ _ _ Hpos). rewrite Hra, Htif, Home, Hzarr.
  erewrite bind_ok by reflexivity.
  destruct (cleanup_leftover w1) as (w2 & Hclean & Htr2 & Htmp2).
  rewrite (bind_ok _ _ _ _ _ Hclean). unfold ret.
  exists w2. split; [reflexivity|]. split; [|exact Htmp2].
  rewrite Htr2. unfold leftover_cleanup. rewrite Htmp1, Htr1.
  unfold logged. cbn [trace TEMP_DIR_NAME].
  rewrite <- !app_assoc. reflexivity.
Qed.

Lemma X5_unrecognised_filetype_exports_nothing_witness :
  exists w',
    generate_stitched Demo.E (Demo.with_filetype [".ome.zarr"; ".ome.tif"]) Demo.w0
    = (Ok None, w') /\
    trace w'
    = trace Demo.w0
      ++ prelude_events Demo.E (Demo.with_filetype [".ome.zarr"; ".ome.tif"])
           (plain_reader (Demo.with_filetype [".ome.zarr"; ".ome.tif"]) []) 0
      ++ position_events Demo.E (Demo.with_filetype [".ome.zarr"; ".ome.tif"])
      ++ leftover_cleanup Demo.w0 /\
    TEMP_DIR_NAME w' = None.
Proof.
  apply (X5_unrecognised_filetype_exports_nothing Demo.E
           (Demo.with_filetype [".ome.zarr"; ".ome.tif"]) Demo.w0 []
           (plain_reader (Demo.with_filetype [".ome.zarr"; ".ome.tif"]) []) 0%Z
           [0%Z; 1%Z]); reflexivity.
Defined.

(** X6: when the crop margins do not sum to a positive value (all zero,
    or negative and positive margins cancelling) no crop happens:
    [_assemble_mosaic] returns an array of the full shape
    [(n_channels, height, width)]. *)
Theorem X6_uncropped_shape (E : env) (mode : rescale_mode) (range : range_spec)
    (ids : list (Z * percentiles)) (outdir : string) (channels mosaic_channels : list Z)
    (height width : nat) (c : crop_spec) (w : world) :
  (forall ch, Np.plane_has_shape height width (assemble_channel E ch) = true) ->
  (length channels <= length mosaic_channels)%nat ->
  (forall ch, In ch channels -> cutoffs_defined mode range ids ch) ->
  (crop_sum c <= 0)%Z ->
  exists merged_array w',
    _assemble_mosaic E mode range ids outdir channels mosaic_channels (height, width) c w
    = (Ok merged_array, w') /\
    Np.has_shape (length mosaic_channels) height width merged_array = true.
Proof.
  intros Hfit Hlen Hcut Hsum.
  destruct (assemble_mosaic_ok E mode range ids outdir channels mosaic_channels
              height width c w Hfit Hlen Hcut) as (mosaics & Hshape & Hrun).
  rewrite Hrun. eexists _, _. split; [reflexivity|].
  unfold crop_mosaic. destruct (Z.ltb_spec 0 (crop_sum c)); [lia | exact Hshape].
Qed.

Lemma X6_uncropped_shape_witness :
  exists merged_array w',
    _assemble_mosaic Demo.E RescaleOn (RangeTuple (1%Q, 99%Q)) [] "/out"
                     [0%Z; 1%Z] [0%Z; 1%Z] (45%nat, 30%nat) (mk_crop (-1) 1 0 0) Demo.w0
    = (Ok merged_array, w') /\
    Np.has_shape (length [0%Z; 1%Z]) 45 30 merged_array = true.
Proof.
  apply (X6_uncropped_shape Demo.E RescaleOn (RangeTuple (1%Q, 99%Q)) [] "/out"
           [0%Z; 1%Z] [0%Z; 1%Z] 45 30 (mk_crop (-1) 1 0 0) Demo.w0).
  - intros ch. vm_compute. reflexivity.
  - simpl. lia.
  - intros ch _ Hmode. discriminate Hmode.
  - vm_compute. discriminate.
Defined.

(* ===================================================================== *)
(** ** [generate_stitched]: channel names *)
(* ===================================================================== *)

Lemma index_from_mem (x : string) (l : list string) :
  PyList.mem x l = true -> forall k, exists i, PyList.index_from k x l = Ok i.
Proof.
  induction l as [|y l IH]; simpl; [discriminate|].
  intros H k. rewrite String.eqb_sym.
  destruct (String.eqb x y); [eauto|]. simpl in H. now apply IH.
Qed.

(** X7: a [stitching_channel] that is not a channel name of the slide
    makes the run raise [ValueError] once the reader is configured and
    the axis flipped; nothing is aligned and no file is written. *)
Theorem X7_unknown_stitching_channel (E : env) (a : stitch_args) (w : world)
    (ids : list (Z * percentiles)) (slide : reader) :
  range_ids_of E a = Ok ids ->
  configure_partial E a (plain_reader a ids) = ret slide ->
  PyList.mem (stitching_channel a) (PyDict.values (channel_map E)) = false ->
  generate_stitched E a w
  = (Raise (ValueError (stitching_channel a +:+ " is not in list")),
     logged w [EReadSlide (input_dir a) (pattern a); EAxisFlip]).
Proof.
  intros Hids Hconf Hmem.
  unfold generate_stitched.
  erewrite bind_ok by reflexivity.
  rewrite Hids. erewrite bind_ok by reflexivity.
  unfold plain_reader in Hconf. unfold PyList.index.
  rewrite (index_from_not_mem _ _ 0%Z Hmem).
  destruct (rescale_range a);
    cbn [rd_path rd_pattern rd_overlap rd_rescale_range rd_do_rescale
         rd_WGAchannel rd_no_rescale_channel];
    rewrite Hconf;
    (erewrite bind_ok by reflexivity);
    (erewrite bind_ok by reflexivity);
    unfold_M; unfold logged; cbn [fs trace TEMP_DIR_NAME];
    rewrite <- ?app_assoc; reflexivity.
Qed.

Lemma X7_unknown_stitching_channel_witness :
  generate_stitched Demo.E Demo.odd_args Demo.w0
  = (Raise (ValueError ("cropped" +:+ " is not in list")),
     logged Demo.w0 [EReadSlide "/in" "pat"; EAxisFlip]).
Proof.
  apply (X7_unknown_stitching_channel Demo.E Demo.odd_args Demo.w0 []
           (plain_reader Demo.odd_args [])); reflexivity.
Defined.

Lemma resolve_range_raise (E : env) (d : list (string * percentiles)) :
  (exists kv, In kv d /\ PyList.mem kv.1 (PyDict.values (channel_map E)) = false) ->
  exists k,
    In k (map fst d) /\ PyList.mem k (PyDict.values (channel_map E)) = false /\
    resolve_range E d = Raise (ValueError (k +:+ " is not in list")).
Proof.
  unfold resolve_range.
  induction d as [|kv0 d IH]; intros (kv & Hin & Hbad); simpl in *; [tauto|].
  destruct (PyList.mem kv0.1 (PyDict.values (channel_map E))) eqn:Hm.
  - destruct (index_from_mem _ _ Hm 0%Z) as [i Hi].
    unfold PyList.index at 1. rewrite Hi.
    destruct Hin as [->|Hin]; [congruence|].
    destruct IH as (k & Hk & Hkbad & Hrun); [eauto|].
    exists k. split; [now right|]. split; [exact Hkbad|]. now rewrite Hrun.
  - exists kv0.1. split; [now left|]. split; [exact Hm|].
    unfold PyList.index at 1. now rewrite index_from_not_mem.
Qed.

(** X8: a per-channel [rescale_range] dict with a key that is not a
    channel name of the slide makes the run raise [ValueError] right after
    the reader is built, in every rescale mode: it comes before the
    [partial] check, before the alignment and before any output. *)
Theorem X8_unknown_rescale_channel (E : env) (a : stitch_args) (w : world)
    (d : list (string * percentiles)) (kv : string * percentiles) :
  rescale_range a = RangeDict d ->
  In kv d ->
  PyList.mem kv.1 (PyDict.values (channel_map E)) = false ->
  exists k,
    In k (map fst d) /\ PyList.mem k (PyDict.values (channel_map E)) = false /\
    generate_stitched E a w
    = (Raise (ValueError (k +:+ " is not in list")),
       logged w [EReadSlide (input_dir a) (pattern a)]).
Proof.
  intros Hd Hin Hbad.
  destruct (resolve_range_raise E d) as (k & Hk & Hkbad & Hrun); [eauto|].
  exists k. split; [exact Hk|]. split; [exact Hkbad|].
  unfold generate_stitched. erewrite bind_ok by reflexivity.
  unfold range_ids_of. rewrite Hd, Hrun. reflexivity.
Qed.

Lemma X8_unknown_rescale_channel_witness :
  exists k,
    In k (map fst [("DAPI", (1%Q, 99%Q)); ("Cy5", (0.5%Q, 99.5%Q))]) /\
    PyList.mem k (PyDict.values (channel_map Demo.E)) = false /\
    generate_stitched Demo.E Demo.dict_args Demo.w0
    = (Raise (ValueError (k +:+ " is not in list")),
       logged Demo.w0 [EReadSlide (input_dir Demo.dict_args) (pattern Demo.dict_args)]).
Proof.
  apply (X8_unknown_rescale_channel Demo.E Demo.dict_args Demo.w0
           [("DAPI", (1%Q, 99%Q)); ("Cy5", (0.5%Q, 99.5%Q))] ("Cy5", (0.5%Q, 99.5%Q))).
  - reflexivity.
  - simpl. auto.
  - reflexivity.
Defined.

(** X9: the one exclusion list the [partial] mode accepts is the empty
    one: the loop of line 323 does not run, the reader records an empty
    exclusion set, and the run goes on to alignment and export like in any
    other mode. *)
Theorem X9_partial_with_empty_exclusion (E : env) (a : stitch_args) (w : world)
    (ids : list (Z * percentiles)) (cid : Z) (chs : list Z) :
  do_intensity_rescale a = RescalePartial ->
  no_rescale_channel a = Some [] ->
  range_ids_of E a = Ok ids ->
  PyList.index (stitching_channel a) (PyDict.values (channel_map E)) = Ok cid ->
  select_channels E a (PyDict.keys (channel_map E)) = Ok chs ->
  exists slide,
    rd_no_rescale_channel slide = Some [] /\
    rd_do_rescale slide = RescalePartial /\
    generate_stitched E a w
    = after_selection E a ids chs
        (logged w ([EReadSlide (input_dir a) (pattern a); EAxisFlip;
                    EAlign slide cid (filter_sigma a) (max_shift a)]
                   ++ qc_events E a)).
Proof.
  intros Hmode Hexcl Hids Hcid Hchs.
  eexists. split; [|split]; cycle 2.
  - apply (stitch_reaches_selection E a w ids _ cid chs Hids); [|exact Hcid|exact Hchs].
    unfold configure_partial. rewrite Hmode, Hexcl. reflexivity.
  - reflexivity.
  - cbn [rd_do_rescale plain_reader]. exact Hmode.
Qed.

Lemma X9_partial_with_empty_exclusion_witness :
  exists slide,
    rd_no_rescale_channel slide = Some [] /\
    rd_do_rescale slide = RescalePartial /\
    generate_stitched Demo.E (Demo.partial_args (Some [])) Demo.w0
    = after_selection Demo.E (Demo.partial_args (Some [])) [] [0%Z; 1%Z]
        (logged Demo.w0
           ([EReadSlide "/in" "pat"; EAxisFlip; EAlign slide 0 0 30]
            ++ qc_events Demo.E (Demo.partial_args (Some [])))).
Proof.
  apply (X9_partial_with_empty_exclusion Demo.E (Demo.partial_args (Some [])) Demo.w0
           [] 0%Z [0%Z; 1%Z]); reflexivity.
Defined.

Lemma index_from_lookup (l : list string) :
  NoDup l ->
  forall (i : nat) (x : string) (k : Z),
    l !! i = Some x -> PyList.index_from k x l = Ok (k + Z.of_nat i)%Z.
Proof.
  induction 1 as [|y l Hy Hnd IH]; intros i x k Hi; [discriminate|].
  destruct i as [|i]; simpl in *.
  - injection Hi as ->. rewrite String.eqb_refl. f_equal. lia.
  - destruct (String.eqb_spec y x) as [->|_].
    + exfalso. apply Hy. eapply list_elem_of_lookup_2. exact Hi.
    + rewrite (IH i x (k + 1)%Z Hi). f_equal. lia.
Qed.

Lemma index_all_positions (l : list string) :
  NoDup l ->
  forall pre suf : list string,
    l = pre ++ suf ->
    map_outcome (fun c => PyList.index c l) suf
    = Ok (map Z.of_nat (seq (length pre) (length suf))).
Proof.
  intros Hnd pre suf. revert pre.
  induction suf as [|x suf IH]; intros pre Hl; simpl; [reflexivity|].
  unfold PyList.index at 1.
  rewrite (index_from_lookup l Hnd (length pre) x 0%Z).
  2: { rewrite Hl. now rewrite list_lookup_middle. }
  rewrite (IH (pre ++ [x])).
  2: { rewrite Hl. now rewrite <- app_assoc. }
  rewrite length_app. simpl. rewrite Nat.add_1_r. reflexivity.
Qed.

(** X10: if the channel names are distinct, passing the channel map's own
    name order as [channel_order] selects the positions [0 .. n-1]; when
    the map's keys are [0 .. n-1], as for a map built by enumeration, this
    is the selection [channel_order = None] makes. *)
Theorem X10_channel_order_round_trip (E : env) (a : stitch_args) :
  NoDup (PyDict.values (channel_map E)) ->
  channel_order a = Some (PyDict.values (channel_map E)) ->
  select_channels E a (PyDict.keys (channel_map E))
  = Ok (map Z.of_nat (seq 0 (length (channel_map E)))) /\
  (PyDict.keys (channel_map E) = map Z.of_nat (seq 0 (length (channel_map E))) ->
   select_channels E a (PyDict.keys (channel_map E)) = Ok (PyDict.keys (channel_map E))).
Proof.
  intros Hnd Horder.
  assert (Hsel : select_channels E a (PyDict.keys (channel_map E))
                 = Ok (map Z.of_nat (seq 0 (length (channel_map E))))).
  { unfold select_channels. rewrite Horder.
    rewrite (index_all_positions _ Hnd [] (PyDict.values (channel_map E)) eq_refl).
    simpl. unfold PyDict.values. now rewrite length_map. }
  split; [exact Hsel|]. intros Hkeys. now rewrite Hsel, <- Hkeys.
Qed.

Lemma X10_channel_order_round_trip_witness :
  select_channels Demo.E (Demo.reorder_args ["Alexa488"; "DAPI"])
    (PyDict.keys (channel_map Demo.E))
  = Ok (map Z.of_nat (seq 0 (length (channel_map Demo.E)))) /\
  (PyDict.keys (channel_map Demo.E)
   = map Z.of_nat (seq 0 (length (channel_map Demo.E))) ->
   select_channels Demo.E (Demo.reorder_args ["Alexa488"; "DAPI"])
     (PyDict.keys (channel_map Demo.E))
   = Ok (PyDict.keys (channel_map Demo.E))).
Proof.
  apply (X10_channel_order_round_trip Demo.E (Demo.reorder_args ["Alexa488"; "DAPI"])).
  - simpl. apply NoDup_cons. split; [|apply NoDup_singleton].
    intros Hin. apply list_elem_of_singleton in Hin. discriminate Hin.
  - reflexivity.
Defined.

(* ===================================================================== *)
(** ** The colour palette of the OME-Zarr metadata *)
(* ===================================================================== *)

Section Palette.

Variable base : list string.

Lemma repeats_base : repeats_of base base.
Proof.
  split.
  - exists 1%nat. lia.
  - intros j Hj. now rewrite Nat.mod_small.
Qed.

Lemma repeats_double (cur : list string) :
  repeats_of base cur -> repeats_of base (cur ++ cur).
Proof.
  intros [[m Hm] Hcyc]. split.
  - exists (2 * m)%nat. rewrite length_app. lia.
  - intros j Hj. rewrite length_app in Hj.
    destruct (Nat.lt_ge_cases j (length cur)) as [Hlt|Hge].
    + rewrite lookup_app_l by exact Hlt. now apply Hcyc.
    + rewrite lookup_app_r by exact Hge.
      rewrite Hcyc by lia. f_equal.
      replace j with ((j - length cur) + m * length base)%nat at 2 by lia.
      now rewrite Nat.Div0.mod_add.
Qed.

Lemma repeats_extend (n fuel : nat) :
  forall cur, repeats_of base cur -> repeats_of base (extend_colors fuel n cur).
Proof.
  induction fuel as [|fuel IH]; intros cur Hcur; simpl; [exact Hcur|].
  destruct (length cur <? n)%nat; [|exact Hcur].
  now apply IH, repeats_double.
Qed.

End Palette.

Lemma colour_loop_lookup (colors : list string) (names : list string) :
  forall (k : nat) (chans : list (string * string * bool)),
    map_outcome (fun ic : nat * string =>
                   match PyList.getitem colors ic.1 with
                   | Ok c => Ok (ic.2, c, true)
                   | Raise e => Raise e
                   end)
                (PyList.enumerate_from k names) = Ok chans ->
    forall i name, names !! i = Some name ->
      exists c, colors !! (k + i)%nat = Some c /\ chans !! i = Some (name, c, true).
Proof.
  induction names as [|x names IH]; intros k chans Hrun i name Hi; [discriminate|].
  simpl in Hrun. unfold PyList.getitem at 1 in Hrun.
  destruct (colors !! k) as [c|] eqn:Hc; [|discriminate].
  destruct (map_outcome _ (PyList.enumerate_from (S k) names)) as [rest|] eqn:Hrest;
    [|discriminate].
  injection Hrun as <-.
  destruct i as [|i]; simpl in Hi.
  - injection Hi as <-. exists c. rewrite Nat.add_0_r. split; [exact Hc | reflexivity].
  - destruct (IH (S k) rest Hrest i name Hi) as (c' & Hc' & Hch).
    exists c'. split; [|exact Hch]. now rewrite Nat.add_succ_r.
Qed.

(** X11: the channel metadata of the OME-Zarr export never fails for want
    of colours: channel [i] gets its name as label, is active, and gets
    colour [i mod 9] of the nine-colour palette. *)
Theorem X11_zarr_palette_is_cyclic (names : list string) :
  exists chans,
    omero_channels names = Ok chans /\
    length chans = length names /\
    forall i name, names !! i = Some name ->
      exists c,
        channel_colors !! (i mod 9)%nat = Some c /\
        chans !! i = Some (name, c, true).
Proof.
  destruct (omero_channels_ok names) as (chans & Hrun & Hlab).
  exists chans. split; [exact Hrun|]. split.
  - apply (f_equal length) in Hlab. rewrite length_map in Hlab. exact Hlab.
  - intros i name Hi.
    unfold omero_channels, PyList.enumerate in Hrun.
    destruct (colour_loop_lookup _ names 0 chans Hrun i name Hi) as (c & Hc & Hch).
    exists c. split; [|exact Hch].
    assert (Hrep : repeats_of channel_colors
                     (extend_colors (length names) (length names) channel_colors)).
    { apply repeats_extend, repeats_base. }
    destruct Hrep as [_ Hcyc]. simpl in Hc.
    rewrite <- Hcyc; [exact Hc|].
    apply lookup_lt_is_Some. eauto.
Qed.

(* ===================================================================== *)
(** ** [_reorder_list] *)
(* ===================================================================== *)

Lemma assign_position_in_range (n : nat) (i : Z) :
  (0 <= i < Z.of_nat n)%Z -> assign_position n i = Ok (Z.to_nat i).
Proof.
  intros H. unfold assign_position.
  destruct (Z.leb_spec 0 i); [|lia]. destruct (Z.ltb_spec i (Z.of_nat n)); [|lia].
  reflexivity.
Qed.

Lemma assign_position_ok (n : nat) (i : Z) (k : nat) :
  assign_position n i = Ok k -> (- Z.of_nat n <= i < Z.of_nat n)%Z /\ (k < n)%nat.
Proof.
  unfold assign_position.
  destruct (Z.leb_spec 0 i); destruct (Z.ltb_spec i (Z.of_nat n)); simpl;
    try (intros [= <-]; lia);
    destruct (Z.leb_spec (- Z.of_nat n) i); destruct (Z.ltb_spec i 0); simpl;
    try discriminate; intros [= <-]; lia.
Qed.

Section Reorder.

Context {A : Type}.
Variable original : list A.
Variable n : nat.

(** The loop, from position [k] of the original list on, with distinct
    indices in range: every value lands in its slot and the other slots
    are left alone. *)
Lemma reorder_loop (idxs : list Z) :
  forall (k : nat) (acc : list (option A)),
    length acc = n ->
    Forall (fun idx => (0 <= idx < Z.of_nat n)%Z) idxs ->
    NoDup idxs ->
    (k + length idxs <= length original)%nat ->
    exists r,
      fold_outcome (reorder_step original) (PyList.enumerate_from k idxs) acc = Ok r /\
      length r = n /\
      (forall i idx, idxs !! i = Some idx ->
         exists x, original !! (k + i)%nat = Some x /\
                   r !! Z.to_nat idx = Some (Some x)) /\
      (forall j, (forall idx, idx ∈ idxs -> Z.to_nat idx <> j) -> r !! j = acc !! j).
Proof.
  induction idxs as [|idx0 idxs IH]; intros k acc Hacc Hrange Hnd Hk.
  - exists acc. simpl. repeat split; auto. intros i idx Hi. discriminate Hi.
  - simpl in Hk. apply Forall_cons in Hrange as [Hidx0 Hrange].
    apply NoDup_cons in Hnd as [Hfresh Hnd].
    destruct (lookup_lt_is_Some_2 original k ltac:(lia)) as [x0 Hx0].
    cbn [PyList.enumerate_from fold_outcome].
    unfold reorder_step at 1. cbn [fst snd]. unfold PyList.getitem.
    rewrite Hx0, Hacc, (assign_position_in_range n idx0 Hidx0).
    destruct (IH (S k) (<[Z.to_nat idx0 := Some x0]> acc)) as (r & Hrun & Hlen & Hput & Hkeep);
      [now rewrite length_insert | exact Hrange | exact Hnd | lia |].
    exists r. split; [exact Hrun|]. split; [exact Hlen|]. split.
    + intros [|i] idx Hi; simpl in Hi.
      * injection Hi as <-. exists x0. rewrite Nat.add_0_r. split; [exact Hx0|].
        rewrite Hkeep.
        -- apply list_lookup_insert_eq. lia.
        -- intros idx Hin Heq. apply Hfresh.
           rewrite Forall_forall in Hrange. specialize (Hrange idx Hin).
           assert (idx = idx0) by lia. now subst.
      * destruct (Hput i idx Hi) as (x & Hx & Hr).
        exists x. split; [|exact Hr]. now rewrite Nat.add_succ_r.
    + intros j Hj. rewrite Hkeep.
      * apply list_lookup_insert_ne. apply Hj. now left.
      * intros idx Hin. apply Hj. now right.
Qed.

(** An index outside [-n .. n-1] stops the loop with [IndexError]. *)
Lemma reorder_loop_out_of_range (idxs : list Z) :
  forall (k : nat) (acc : list (option A)),
    length acc = n ->
    (k + length idxs <= length original)%nat ->
    (exists idx, idx ∈ idxs /\ ~ (- Z.of_nat n <= idx < Z.of_nat n)%Z) ->
    fold_outcome (reorder_step original) (PyList.enumerate_from k idxs) acc
    = Raise IndexError.
Proof.
  induction idxs as [|idx0 idxs IH]; intros k acc Hacc Hk (idx & Hin & Hbad).
  - inversion Hin.
  - simpl in Hk.
    destruct (lookup_lt_is_Some_2 original k ltac:(lia)) as [x0 Hx0].
    cbn [PyList.enumerate_from fold_outcome].
    unfold reorder_step at 1. cbn [fst snd]. unfold PyList.getitem.
    rewrite Hx0, Hacc.
    destruct (assign_position n idx0) as [pos|e] eqn:Hpos.
    + apply assign_position_ok in Hpos as [Hin0 _].
      apply IH; [now rewrite length_insert | lia |].
      exists idx. split; [|exact Hbad].
      apply elem_of_cons in Hin as [->|Hin]; [contradiction | exact Hin].
    + unfold assign_position in Hpos.
      repeat match type of Hpos with
             | (if ?b then _ else _) = _ => destruct b
             end; congruence.
Qed.

End Reorder.

(** X12: for lists of equal length and an index list of distinct indices
    in [0 .. n-1], [_reorder_list] returns a list of the same length in
    which the value at position [i] of the original sits at position
    [index_list[i]]; no slot is left unassigned. *)
Theorem X12_reorder_list_places_values {A : Type} (original : list A)
    (index_list : list Z) :
  length original = length index_list ->
  Forall (fun idx => (0 <= idx < Z.of_nat (length original))%Z) index_list ->
  NoDup index_list ->
  exists r,
    _reorder_list original index_list = Ok r /\
    length r = length original /\
    (forall i x idx, original !! i = Some x -> index_list !! i = Some idx ->
       r !! Z.to_nat idx = Some (Some x)) /\
    (forall j, (j < length original)%nat -> exists x, r !! j = Some (Some x)).
Proof.
  intros Hlen Hrange Hnd.
  destruct (reorder_loop original (length original) index_list 0
              (repeat None (length original)))
    as (r & Hrun & Hr & Hput & _);
    [apply repeat_length | exact Hrange | exact Hnd | simpl; lia |].
  exists r. unfold _reorder_list, PyList.enumerate.
  rewrite Hlen, Nat.eqb_refl. cbn [negb]. rewrite <- Hlen.
  split; [exact Hrun|]. split; [exact Hr|].
  assert (Hplace : forall i x idx, original !! i = Some x -> index_list !! i = Some idx ->
                     r !! Z.to_nat idx = Some (Some x)).
  { intros i x idx Hx Hidx. destruct (Hput i idx Hidx) as (x' & Hx' & Hrx).
    simpl in Hx'. congruence. }
  split; [exact Hplace|].
  intros j Hj.
  (* every slot is the target of some index: the indices are distinct
     and as many as the slots *)
  assert (Hperm : Z.to_nat <$> index_list ≡ₚ seq 0 (length original)).
  { apply submseteq_length_Permutation.
    - apply NoDup_submseteq.
      + apply NoDup_fmap_2_strong; [|exact Hnd].
        intros a b Ha Hb Hab. rewrite Forall_forall in Hrange.
        specialize (Hrange a Ha) as Hra. specialize (Hrange b Hb) as Hrb. lia.
      + intros p Hp. apply list_elem_of_fmap in Hp as (idx & -> & Hin).
        rewrite Forall_forall in Hrange. specialize (Hrange idx Hin).
        apply list_elem_of_In, in_seq. lia.
    - rewrite length_seq, length_fmap. lia. }
  assert (Hin : j ∈ Z.to_nat <$> index_list).
  { rewrite Hperm. apply list_elem_of_In, in_seq. lia. }
  apply list_elem_of_fmap in Hin as (idx & -> & Hin).
  apply list_elem_of_lookup in Hin as [i Hi].
  destruct (lookup_lt_is_Some_2 original i) as [x Hx].
  { rewrite Hlen. apply lookup_lt_is_Some. eauto. }
  exists x. exact (Hplace i x idx Hx Hi).
Qed.

Lemma X12_reorder_list_places_values_witness :
  exists r,
    _reorder_list ["a"; "b"; "c"] [2%Z; 0%Z; 1%Z] = Ok r /\
    length r = length ["a"; "b"; "c"] /\
    (forall i x idx, ["a"; "b"; "c"] !! i = Some x -> [2%Z; 0%Z; 1%Z] !! i = Some idx ->
       r !! Z.to_nat idx = Some (Some x)) /\
    (forall j, (j < length ["a"; "b"; "c"])%nat -> exists x, r !! j = Some (Some x)).
Proof.
  apply (X12_reorder_list_places_values ["a"; "b"; "c"] [2%Z; 0%Z; 1%Z]).
  - reflexivity.
  - repeat constructor; simpl; lia.
  - repeat (apply NoDup_cons; split;
            [rewrite list_elem_of_In; simpl; intuition discriminate|]).
    apply NoDup_nil_2.
Defined.

(** X13: [_reorder_list] raises [ValueError] when the two lists differ in
    length and, for lists of equal length [n], [IndexError] when some
    index is outside [-n .. n-1]. *)
Theorem X13_reorder_list_errors {A : Type} (original : list A) (index_list : list Z) :
  (length original <> length index_list ->
   _reorder_list original index_list
   = Raise (ValueError "The length of the original list and index list must be the same.")) /\
  (length original = length index_list ->
   (exists idx, idx ∈ index_list /\
      ~ (- Z.of_nat (length original) <= idx < Z.of_nat (length original))%Z) ->
   _reorder_list original index_list = Raise IndexError).
Proof.
  split.
  - intros Hne. unfold _reorder_list.
    destruct (Nat.eqb_spec (length original) (length index_list)); [contradiction|].
    reflexivity.
  - intros Hlen Hbad. unfold _reorder_list, PyList.enumerate.
    rewrite Hlen, Nat.eqb_refl. cbn [negb]. rewrite <- Hlen.
    apply (reorder_loop_out_of_range original (length original));
      [apply repeat_length | simpl; lia | exact Hbad].
Qed.

Lemma X13_reorder_list_errors_witness :
  _reorder_list ["a"; "b"] [0%Z] 
  = Raise (ValueError "The length of the original list and index list must be the same.") /\
  _reorder_list ["a"; "b"] [0%Z; 2%Z] = Raise IndexError.
Proof.
  split.
  - apply (proj1 (X13_reorder_list_errors ["a"; "b"] [0%Z])). simpl. lia.
  - apply (proj2 (X13_reorder_list_errors ["a"; "b"] [0%Z; 2%Z])).
    + reflexivity.
    + exists 2%Z. split; [|simpl; lia].
      apply list_elem_of_In. simpl. auto.
Defined.

(* ===================================================================== *)
(** ** [prepare_stitch_slurm_job]: degenerate inputs and the job table *)
(* ===================================================================== *)

Lemma ensure_dir_trace (p : string) (w : world) :
  exists w1 made,
    ensure_dir p w = (Ok tt, w1) /\
    trace w1 = trace w ++ made /\ Forall is_makedirs made.
Proof.
  unfold ensure_dir, bind, Fs.isdir.
  destruct (match fs w !! p with Some (Dir _) => true | _ => false end).
  - exists w, []. split; [reflexivity|]. split; [now rewrite app_nil_r | constructor].
  - eexists _, [EMakedirs p]. split; [reflexivity|]. split; [reflexivity|].
    repeat constructor. now exists p.
Qed.

(** The first part of the function: three directories are created when
    missing and [processing.py] is written; this happens whatever the
    input directory holds. *)
Lemma slurm_setup (E : env) (a : slurm_args) (w : world) :
  exists w4 made,
    Forall is_makedirs made /\
    trace w4 = trace w ++ made ++ [EWrite (slurm_dir a +:+ "/processing.py")] /\
    forall k : M unit,
      (do ensure_dir (slurm_dir a) then
       do ensure_dir (PyStr.path_join (sl_path a) "stitched_wells") then
       do ensure_dir (PyStr.path_join (slurm_dir a) "logs") then
       do Fs.write_file (slurm_dir a +:+ "/processing.py")
            (CText (processing_py (PyStr.path_join (sl_path a) "stitched_wells") a)) then
       k) w = k w4.
Proof.
  destruct (ensure_dir_trace (slurm_dir a) w) as (w1 & m1 & H1 & T1 & F1).
  destruct (ensure_dir_trace (PyStr.path_join (sl_path a) "stitched_wells") w1)
    as (w2 & m2 & H2 & T2 & F2).
  destruct (ensure_dir_trace (PyStr.path_join (slurm_dir a) "logs") w2)
    as (w3 & m3 & H3 & T3 & F3).
  eexists _, (m1 ++ m2 ++ m3). split; [|split].
  - apply Forall_app. split; [exact F1|]. apply Forall_app. now split.
  - shelve.
  - intros k.
    rewrite (bind_ok _ _ _ _ _ H1), (bind_ok _ _ _ _ _ H2), (bind_ok _ _ _ _ _ H3).
    erewrite bind_ok by reflexivity. reflexivity.
  Unshelve.
  cbn [trace]. rewrite T3, T2, T1. rewrite <- !app_assoc. reflexivity.
Qed.

Lemma filter_none {A} (f : A -> bool) (l : list A) :
  Forall (fun x => f x = false) l -> List.filter f l = [].
Proof.
  induction 1 as [|x l Hx _ IH]; simpl; [reflexivity|]. now rewrite Hx.
Qed.

(** X14: an input directory without wells, or whose first well holds no
    [.tif] tile, makes the function raise ([IndexError] on [wells[0]],
    [ValueError] on the column names of the empty table) after it has
    created its directories and written [processing.py]: neither the
    parameter table nor [run.sh] is written. *)
Theorem X14_slurm_job_needs_wells_and_tiles (E : env) (a : slurm_args) (w : world) :
  (forall files,
     listdir E (well_dir a) = Some files ->
     Forall (fun f => f = ".DS_Store") files ->
     exists w' made,
       prepare_stitch_slurm_job E a w = (Raise IndexError, w') /\
       Forall is_makedirs made /\
       trace w' = trace w ++ made ++ [EWrite (slurm_dir a +:+ "/processing.py")]) /\
  (forall well0 wells tiles,
     find_wells E (well_dir a) = Ok (well0 :: wells) ->
     listdir E (PyStr.path_join (well_dir a) well0) = Some tiles ->
     Forall (fun f => PyStr.endswith ".tif" f = false) tiles ->
     exists w' made,
       prepare_stitch_slurm_job E a w
       = (Raise (ValueError "Length mismatch: Expected axis has 0 elements, new values have 3 elements"),
          w') /\
       Forall is_makedirs made /\
       trace w' = trace w ++ made ++ [EWrite (slurm_dir a +:+ "/processing.py")]).
Proof.
  destruct (slurm_setup E a w) as (w4 & made & Hmade & Htr & Hrun).
  split.
  - intros files Hls Hall. exists w4, made.
    split; [|split; [exact Hmade | exact Htr]].
    unfold prepare_stitch_slurm_job. fold (slurm_dir a). fold (well_dir a).
    rewrite Hrun.
    assert (Hwells : find_wells E (well_dir a) = Ok []).
    { unfold find_wells, os_listdir. rewrite Hls.
      rewrite (filter_none _ files); [reflexivity|].
      eapply Forall_impl; [exact Hall|]. intros f ->. reflexivity. }
    rewrite Hwells. reflexivity.
  - intros well0 wells tiles Hwells Hls Hall. exists w4, made.
    split; [|split; [exact Hmade | exact Htr]].
    unfold prepare_stitch_slurm_job. fold (slurm_dir a). fold (well_dir a).
    rewrite Hrun. rewrite Hwells. erewrite bind_ok by reflexivity.
    assert (Htimes : find_timepoints E (well_dir a) (well0 :: wells) = Ok []).
    { unfold find_timepoints, os_listdir. cbn [PyList.getitem lookup list_lookup].
      rewrite Hls.
      rewrite (filter_none _ tiles); [reflexivity|].
      eapply Forall_impl; [exact Hall|]. intros f ->. reflexivity. }
    rewrite Htimes. reflexivity.
Qed.

Lemma X14_slurm_job_needs_wells_and_tiles_witness :
  exists w' made,
    prepare_stitch_slurm_job Demo.E_empty Demo.slurm Demo.w0 = (Raise IndexError, w') /\
    Forall is_makedirs made /\
    trace w' = trace Demo.w0 ++ made
               ++ [EWrite (slurm_dir Demo.slurm +:+ "/processing.py")].
Proof.
  apply (proj1 (X14_slurm_job_needs_wells_and_tiles Demo.E_empty Demo.slurm Demo.w0)
           [".DS_Store"]).
  - reflexivity.
  - repeat constructor.
Defined.

(** The run up to the parameter table, for an input directory with wells
    and timepoints. *)
Lemma slurm_table_written (E : env) (a : slurm_args) (w : world)
    (wells timepoints : list string) :
  find_wells E (well_dir a) = Ok wells ->
  find_timepoints E (well_dir a) wells = Ok timepoints ->
  timepoints <> [] ->
  exists w4 made,
    Forall is_makedirs made /\
    trace w4 = trace w ++ made ++ [EWrite (slurm_dir a +:+ "/processing.py")] /\
    prepare_stitch_slurm_job E a w
    = (let* n_jobs :=
         lift (Np.ceil_div
                 (Z.of_nat (length (jobs (well_dir a) (sl_zstack_value a) timepoints wells)))
                 (sl_jobs_per_file a)) in
       Fs.write_file (slurm_dir a +:+ "/run.sh")
                     (CText (run_sh n_jobs (sl_jobs_per_file a) (slurm_dir a))))
        (mk_world
           (<[slurm_dir a +:+ "/array_inputs.csv" :=
                File (CTable "ArrayTaskID" ["pattern"; "slidename"; "path"]
                        (jobs (well_dir a) (sl_zstack_value a) timepoints wells))]> (fs w4))
           (trace w4 ++ [EWrite (slurm_dir a +:+ "/array_inputs.csv")])
           (TEMP_DIR_NAME w4)).
Proof.
  intros Hwells Htimes Hne.
  destruct (slurm_setup E a w) as (w4 & made & Hmade & Htr & Hrun).
  exists w4, made. split; [exact Hmade|]. split; [exact Htr|].
  unfold prepare_stitch_slurm_job. fold (slurm_dir a). fold (well_dir a).
  rewrite Hrun. rewrite Hwells. erewrite bind_ok by reflexivity.
  rewrite Htimes. erewrite bind_ok by reflexivity.
  destruct (jobs (well_dir a) (sl_zstack_value a) timepoints wells) as [|row rows] eqn:Hrows.
  { exfalso. destruct timepoints as [|t ts]; [congruence|].
    destruct wells as [|w0 ws]; [discriminate Htimes|]. discriminate Hrows. }
  cbn [data_frame]. erewrite bind_ok by reflexivity.
  erewrite bind_ok by reflexivity. reflexivity.
Qed.

(** X15: with [jobs_per_file = 0] the division of line 597 raises
    [ZeroDivisionError] after the parameter table has been written:
    [array_inputs.csv] is on disk with all its rows, [run.sh] is not
    written. *)
Theorem X15_zero_jobs_per_file (E : env) (a : slurm_args) (w : world)
    (wells timepoints : list string) :
  find_wells E (well_dir a) = Ok wells ->
  find_timepoints E (well_dir a) wells = Ok timepoints ->
  timepoints <> [] ->
  sl_jobs_per_file a = 0%Z ->
  exists w' made,
    prepare_stitch_slurm_job E a w = (Raise ZeroDivisionError, w') /\
    Forall is_makedirs made /\
    trace w' = trace w ++ made
               ++ [EWrite (slurm_dir a +:+ "/processing.py");
                   EWrite (slurm_dir a +:+ "/array_inputs.csv")] /\
    fs w' !! (slurm_dir a +:+ "/array_inputs.csv")
    = Some (File (CTable "ArrayTaskID" ["pattern"; "slidename"; "path"]
                    (jobs (well_dir a) (sl_zstack_value a) timepoints wells))).
Proof.
  intros Hwells Htimes Hne Hzero.
  destruct (slurm_table_written E a w wells timepoints Hwells Htimes Hne)
    as (w4 & made & Hmade & Htr & Hrun).
  rewrite Hrun. unfold Np.ceil_div. rewrite Hzero. cbn [Z.eqb].
  eexists _, made. split; [reflexivity|]. split; [exact Hmade|].
  cbn [trace fs]. split.
  - rewrite Htr. rewrite <- !app_assoc. reflexivity.
  - apply lookup_insert_eq.
Qed.

Lemma X15_zero_jobs_per_file_witness :
  exists w' made,
    prepare_stitch_slurm_job Demo.E
      (mk_slurm_args "/proj" "mCherry" 1 "(0.1, 99.9)" "0.1" 0) Demo.w0
    = (Raise ZeroDivisionError, w') /\
    Forall is_makedirs made /\
    trace w' = trace Demo.w0 ++ made
               ++ [EWrite (slurm_dir (mk_slurm_args "/proj" "mCherry" 1 "(0.1, 99.9)" "0.1" 0)
                             +:+ "/processing.py");
                   EWrite (slurm_dir (mk_slurm_args "/proj" "mCherry" 1 "(0.1, 99.9)" "0.1" 0)
                             +:+ "/array_inputs.csv")] /\
    fs w' !! (slurm_dir (mk_slurm_args "/proj" "mCherry" 1 "(0.1, 99.9)" "0.1" 0)
                +:+ "/array_inputs.csv")
    = Some (File (CTable "ArrayTaskID" ["pattern"; "slidename"; "path"]
                    (jobs (well_dir (mk_slurm_args "/proj" "mCherry" 1 "(0.1, 99.9)" "0.1" 0))
                          1 ["Timepoint001"; "Timepoint002"]
                          ["Row01_Well01"; "Row01_Well02"; "Row02_Well01"]))).
Proof.
  apply (X15_zero_jobs_per_file Demo.E
           (mk_slurm_args "/proj" "mCherry" 1 "(0.1, 99.9)" "0.1" 0) Demo.w0
           ["Row01_Well01"; "Row01_Well02"; "Row02_Well01"]
           ["Timepoint001"; "Timepoint002"]).
  - vm_compute. reflexivity.
  - vm_compute. reflexivity.
  - discriminate.
  - reflexivity.
Defined.

Lemma jobs_lookup (input_path : string) (z : Z) (timepoints wells : list string) :
  forall i j t wl,
    timepoints !! i = Some t ->
    wells !! j = Some wl ->
    jobs input_path z timepoints wells !! (i * length wells + j)%nat
    = Some (job_row input_path z t wl).
Proof.
  unfold jobs. induction timepoints as [|t0 ts IH]; intros i j t wl Hi Hj;
    [discriminate|].
  cbn [flat_map]. destruct i as [|i]; simpl in Hi.
  - injection Hi as ->. simpl.
    rewrite lookup_app_l.
    + now rewrite lookup_map, Hj.
    + rewrite length_map. apply lookup_lt_is_Some. eauto.
  - rewrite lookup_app_r; rewrite length_map; [|lia].
    replace (S i * length wells + j - length wells)%nat with (i * length wells + j)%nat by lia.
    now apply IH.
Qed.

(** X16: the parameter table lists the jobs timepoint by timepoint: the
    row of the timepoint at position [i] and the well at position [j] (both
    in sorted order) is row [i * N + j]; it holds the tile pattern with the
    z-stack number padded to three digits, the slide name
    [{timepoint}_{well}] and the path [{input}/{well}]. *)
Theorem X16_job_table_rows (E : env) (a : slurm_args) (w : world)
    (wells timepoints : list string) :
  find_wells E (well_dir a) = Ok wells ->
  find_timepoints E (well_dir a) wells = Ok timepoints ->
  timepoints <> [] ->
  sl_jobs_per_file a <> 0%Z ->
  exists w' rows,
    prepare_stitch_slurm_job E a w = (Ok tt, w') /\
    fs w' !! (slurm_dir a +:+ "/array_inputs.csv")
    = Some (File (CTable "ArrayTaskID" ["pattern"; "slidename"; "path"] rows)) /\
    forall i j t wl,
      timepoints !! i = Some t ->
      wells !! j = Some wl ->
      rows !! (i * length wells + j)%nat
      = Some [ t +:+ "_" +:+ wl +:+ "_" +:+ "{channel}_" +:+ "zstack"
                 +:+ PyStr.zfill 3 (PyStr.str_of_Z (sl_zstack_value a))
                 +:+ "_r{row:03}_c{col:03}.tif";
               t +:+ "_" +:+ wl;
               well_dir a +:+ "/" +:+ wl ].
Proof.
  intros Hwells Htimes Hne Hjobs.
  destruct (slurm_table_written E a w wells timepoints Hwells Htimes Hne)
    as (w4 & made & Hmade & Htr & Hrun).
  rewrite Hrun. unfold Np.ceil_div.
  destruct (Z.eqb_spec (sl_jobs_per_file a) 0) as [Hz|_]; [contradiction|].
  erewrite bind_ok by reflexivity.
  eexists _, _. split; [reflexivity|]. cbn [fs]. split.
  - rewrite lookup_insert_ne.
    + apply lookup_insert_eq.
    + intros Heq. apply String.app_inj in Heq. discriminate Heq.
  - intros i j t wl Hi Hj. now apply jobs_lookup.
Qed.

Lemma X16_job_table_rows_witness :
  exists w' rows,
    prepare_stitch_slurm_job Demo.E Demo.slurm Demo.w0 = (Ok tt, w') /\
    fs w' !! (slurm_dir Demo.slurm +:+ "/array_inputs.csv")
    = Some (File (CTable "ArrayTaskID" ["pattern"; "slidename"; "path"] rows)) /\
    forall i j t wl,
      ["Timepoint001"; "Timepoint002"] !! i = Some t ->
      ["Row01_Well01"; "Row01_Well02"; "Row02_Well01"] !! j = Some wl ->
      rows !! (i * length ["Row01_Well01"; "Row01_Well02"; "Row02_Well01"] + j)%nat
      = Some [ t +:+ "_" +:+ wl +:+ "_" +:+ "{channel}_" +:+ "zstack"
                 +:+ PyStr.zfill 3 (PyStr.str_of_Z (sl_zstack_value Demo.slurm))
                 +:+ "_r{row:03}_c{col:03}.tif";
               t +:+ "_" +:+ wl;
               well_dir Demo.slurm +:+ "/" +:+ wl ].
Proof.
  apply (X16_job_table_rows Demo.E Demo.slurm Demo.w0
           ["Row01_Well01"; "Row01_Well02"; "Row02_Well01"]
           ["Timepoint001"; "Timepoint002"]).
  - vm_compute. reflexivity.
  - vm_compute. reflexivity.
  - discriminate.
  - discriminate.
Defined.

(* ===================================================================== *)
(** ** [prepare_stitch_slurm_job]: job table and array size *)
(* ===================================================================== *)







(* ===================================================================== *)
(** ** [generate_thumbnail]: errors and the example images *)
(* ===================================================================== *)

(** X17: a reference channel that is not a channel name of the slide makes
    [generate_thumbnail] raise [ValueError] before the thumbnail is made:
    no file is written and no example is exported. *)
Theorem X17_thumbnail_unknown_channel (E : env) (a : thumbnail_args) (w : world) :
  PyList.mem (th_stitching_channel a) (PyDict.values (channel_map E)) = false ->
  generate_thumbnail E a w
  = (Raise (ValueError (th_stitching_channel a +:+ " is not in list")),
     logged w [EReadSlide (th_input_dir a) (th_pattern a); EAxisFlip]).
Proof.
  intros Hmem. unfold generate_thumbnail.
  erewrite bind_ok by reflexivity. erewrite bind_ok by reflexivity.
  unfold PyList.index. rewrite (index_from_not_mem _ _ 0%Z Hmem).
  unfold_M. unfold logged. cbn [fs trace TEMP_DIR_NAME].
  now rewrite <- app_assoc.
Qed.

Lemma X17_thumbnail_unknown_channel_witness :
  generate_thumbnail Demo.E_empty
    (mk_thumbnail_args "/in" "pat" "/out" 0.1%Q "S1" "Cy5" true true (1%Q, 99%Q) 0.05%Q)
    Demo.w0
  = (Raise (ValueError ("Cy5" +:+ " is not in list")),
     logged Demo.w0 [EReadSlide "/in" "pat"; EAxisFlip]).
Proof.
  apply (X17_thumbnail_unknown_channel Demo.E_empty
           (mk_thumbnail_args "/in" "pat" "/out" 0.1%Q "S1" "Cy5" true true
                              (1%Q, 99%Q) 0.05%Q) Demo.w0).
  reflexivity.
Defined.

(** The inner loop of the example export, when every tile exists. *)
Lemma example_loop (E : env) (a : thumbnail_args) (dir channel : string)
    (names files : list string) :
  listdir E (th_input_dir a) = Some names ->
  (forall f, In f files ->
     PyList.mem (PyStr.replace (th_stitching_channel a) channel f) names = true) ->
  forall w, exists w',
    for_each files (fun file => export_example E a dir channel file) w = (Ok tt, w') /\
    trace w'
    = trace w ++ map (fun f => EWrite (PyStr.path_join dir
                                         (PyStr.replace (th_stitching_channel a) channel f)))
                     files.
Proof.
  intros Hls. induction files as [|f files IH]; intros Hall w.
  - exists w. split; [reflexivity|]. simpl. now rewrite app_nil_r.
  - cbn [for_each]. unfold export_example at 1, image_open.
    rewrite Hls, (Hall f (or_introl eq_refl)).
    erewrite bind_ok by reflexivity.
    edestruct IH as (w' & Hrun & Htr); [intros f' Hf'; apply Hall; now right|].
    exists w'. split; [exact Hrun|]. rewrite Htr. cbn [trace map].
    now rewrite <- app_assoc.
Qed.

Lemma example_loops (E : env) (a : thumbnail_args) (dir : string)
    (names files channels : list string) :
  listdir E (th_input_dir a) = Some names ->
  (forall ch, In ch channels -> forall f, In f files ->
     PyList.mem (PyStr.replace (th_stitching_channel a) ch f) names = true) ->
  forall w, exists w',
    for_each channels
      (fun channel => for_each files (fun file => export_example E a dir channel file)) w
    = (Ok tt, w') /\
    trace w'
    = trace w
      ++ flat_map (fun ch =>
                     map (fun f => EWrite (PyStr.path_join dir
                                             (PyStr.replace (th_stitching_channel a) ch f)))
                         files)
                  channels.
Proof.
  intros Hls. induction channels as [|ch channels IH]; intros Hall w.
  - exists w. split; [reflexivity|]. simpl. now rewrite app_nil_r.
  - cbn [for_each flat_map].
    destruct (example_loop E a dir ch names files Hls (Hall ch (or_introl eq_refl)) w)
      as (w1 & Hrun1 & Htr1).
    rewrite (bind_ok _ _ _ _ _ Hrun1).
    edestruct IH as (w' & Hrun & Htr); [intros ch' Hch'; apply Hall; now right|].
    exists w'. split; [exact Hrun|]. rewrite Htr, Htr1. now rewrite <- app_assoc.
Qed.

(** X18: with [export_examples] set, at least ten tiles of the reference
    channel and, for every channel, the counterpart of each such tile in
    the input directory, [generate_thumbnail] succeeds and writes, after
    the thumbnail, ten example images per channel: for each channel in
    turn, the ten sampled tiles with the reference channel's name replaced
    by that channel's. *)
Theorem X18_examples_ten_per_channel (E : env) (a : thumbnail_args) (w : world)
    (names : list string) (cid : Z) :
  th_export_examples a = true ->
  PyList.index (th_stitching_channel a) (PyDict.values (channel_map E)) = Ok cid ->
  listdir E (th_input_dir a) = Some names ->
  (10 <= length (reference_files a names))%nat ->
  (forall ch, In ch (PyDict.values (channel_map E)) ->
     forall f, In f (reference_files a names) ->
       PyList.mem (PyStr.replace (th_stitching_channel a) ch f) names = true) ->
  exists files w' made,
    Random.sample (rng E) (reference_files a names) 10 = Ok files /\
    length files = 10%nat /\
    generate_thumbnail E a w = (Ok tt, w') /\
    Forall is_makedirs made /\
    trace w'
    = trace w
      ++ [ EReadSlide (th_input_dir a) (th_pattern a); EAxisFlip; EThumbnail cid;
           EWrite (PyStr.path_join (th_outdir a)
                     (th_name a +:+ "_thumbnail_" +:+ th_stitching_channel a +:+ ".tif")) ]
      ++ made
      ++ flat_map
           (fun ch =>
              map (fun f =>
                     EWrite (PyStr.path_join
                               (PyStr.path_join (th_outdir a) "example_images")
                               (PyStr.replace (th_stitching_channel a) ch f)))
                  files)
           (PyDict.values (channel_map E)).
Proof.
  intros Hex Hcid Hls Hten Htiles.
  assert (Hsample : Random.sample (rng E) (reference_files a names) 10
                    = Ok (Random.draw (rng E) 0 10 (reference_files a names))).
  { unfold Random.sample.
    destruct (Nat.ltb_spec (length (reference_files a names)) 10); [lia | reflexivity]. }
  exists (Random.draw (rng E) 0 10 (reference_files a names)).
  unfold generate_thumbnail.
  erewrite bind_ok by reflexivity. erewrite bind_ok by reflexivity.
  rewrite Hcid. erewrite bind_ok by reflexivity.
  erewrite bind_ok by reflexivity. erewrite bind_ok by reflexivity.
  rewrite Hex. unfold export_examples. rewrite Hls.
  erewrite bind_ok by reflexivity.
  unfold Fs.exists_ at 1. unfold bind at 1.
  match goal with
  | |- context [match ?m !! ?k with Some _ => true | None => false end] =>
      destruct (m !! k)
  end.
  - erewrite bind_ok by reflexivity. rewrite Hsample.
    erewrite bind_ok by reflexivity.
    match goal with
    | |- context [for_each _ _ ?w0] =>
        destruct (example_loops E a (PyStr.path_join (th_outdir a) "example_images")
                    names (Random.draw (rng E) 0 10 (reference_files a names))
                    (PyDict.values (channel_map E)) Hls) with (w := w0)
          as (w' & Hrun & Htr)
    end.
    { intros ch Hch f Hf. apply Htiles; [exact Hch|]. eapply draw_subset, Hf. }
    exists w', []. split; [reflexivity|]. split; [now apply draw_length|].
    split; [exact Hrun|]. split; [constructor|].
    rewrite Htr. cbn [trace]. rewrite <- !app_assoc. reflexivity.
  - erewrite bind_ok by reflexivity. rewrite Hsample.
    erewrite bind_ok by reflexivity.
    match goal with
    | |- context [for_each _ _ ?w0] =>
        destruct (example_loops E a (PyStr.path_join (th_outdir a) "example_images")
                    names (Random.draw (rng E) 0 10 (reference_files a names))
                    (PyDict.values (channel_map E)) Hls) with (w := w0)
          as (w' & Hrun & Htr)
    end.
    { intros ch Hch f Hf. apply Htiles; [exact Hch|]. eapply draw_subset, Hf. }
    exists w', [EMakedirs (PyStr.path_join (th_outdir a) "example_images")].
    split; [reflexivity|]. split; [now apply draw_length|].
    split; [exact Hrun|]. split; [repeat constructor; eexists; reflexivity|].
    rewrite Htr. cbn [trace]. rewrite <- !app_assoc. reflexivity.
Qed.

Lemma X18_examples_ten_per_channel_witness :
  exists files w' made,
    Random.sample (rng Demo.E_tiles) (reference_files Demo.thumb_args Demo.tiles12) 10
    = Ok files /\
    length files = 10%nat /\
    generate_thumbnail Demo.E_tiles Demo.thumb_args Demo.w0 = (Ok tt, w') /\
    Forall is_makedirs made /\
    trace w'
    = trace Demo.w0
      ++ [ EReadSlide (th_input_dir Demo.thumb_args) (th_pattern Demo.thumb_args);
           EAxisFlip; EThumbnail 1;
           EWrite (PyStr.path_join (th_outdir Demo.thumb_args)
                     (th_name Demo.thumb_args +:+ "_thumbnail_"
                        +:+ th_stitching_channel Demo.thumb_args +:+ ".tif")) ]
      ++ made
      ++ flat_map
           (fun ch =>
              map (fun f =>
                     EWrite (PyStr.path_join
                               (PyStr.path_join (th_outdir Demo.thumb_args) "example_images")
                               (PyStr.replace (th_stitching_channel Demo.thumb_args) ch f)))
                  files)
           (PyDict.values (channel_map Demo.E_tiles)).
Proof.
  apply (X18_examples_ten_per_channel Demo.E_tiles Demo.thumb_args Demo.w0
           Demo.tiles12 1%Z).
  - reflexivity.
  - reflexivity.
  - reflexivity.
  - vm_compute. lia.
  - intros ch Hch f Hf. vm_compute in Hch, Hf.
    destruct Hch as [<-|[<-|[]]];
      repeat (destruct Hf as [<-|Hf]; [vm_compute; reflexivity|]);
      destruct Hf.
Defined.

(* ===================================================================== *)
(** ** [generate_thumbnail]: the sample of reference tiles *)
(* ===================================================================== *)









(* ===================================================================== *)
(** ** Errors that surface late *)
(* ===================================================================== *)







Lemma map_outcome_same_error {A B} (f : A -> outcome B) (l : list A) (e : exn) :
  (forall x, In x l -> is_ok (f x) = false -> f x = Raise e) ->
  (exists x, In x l /\ is_ok (f x) = false) ->
  map_outcome f l = Raise e.
Proof.
  induction l as [|y l IH]; intros Hsame (x & Hin & Hbad); simpl in *; [tauto|].
  destruct (f y) as [b|e'] eqn:Hy.
  - destruct Hin as [->|Hin]; [rewrite Hy in Hbad; discriminate|].
    rewrite IH; [reflexivity | intros x' Hx'; apply Hsame; now right | eauto].
  - specialize (Hsame y (or_introl eq_refl)). rewrite Hy in Hsame.
    injection (Hsame eq_refl) as ->. reflexivity.
Qed.

(** X20: an entry of [well_sorted] (other than [.DS_Store]) whose name
    does not contain [Row.._Well..] makes the function raise
    [AttributeError] when it calls [.group()] on the failed match, after
    [processing.py] is written and before the parameter table is. *)
Theorem X20_stray_entry_aborts (E : env) (a : slurm_args) (w : world)
    (files : list string) (f : string) :
  listdir E (well_dir a) = Some files ->
  In f files ->
  f <> ".DS_Store" ->
  Re.search Re.well_re f = None ->
  exists w' made,
    prepare_stitch_slurm_job E a w
    = (Raise (AttributeError "'NoneType' object has no attribute 'group'"), w') /\
    Forall is_makedirs made /\
    trace w' = trace w ++ made ++ [EWrite (slurm_dir a +:+ "/processing.py")].
Proof.
  intros Hls Hin Hne Hnomatch.
  destruct (slurm_setup E a w) as (w4 & made & Hmade & Htr & Hrun).
  exists w4, made. split; [|split; [exact Hmade | exact Htr]].
  unfold prepare_stitch_slurm_job. fold (slurm_dir a). fold (well_dir a).
  rewrite Hrun.
  assert (Hwells : find_wells E (well_dir a)
                   = Raise (AttributeError "'NoneType' object has no attribute 'group'")).
  { unfold find_wells, os_listdir. rewrite Hls.
    rewrite (map_outcome_same_error _ _
               (AttributeError "'NoneType' object has no attribute 'group'"));
      [reflexivity | |].
    - intros x _. destruct (Re.search Re.well_re x); [discriminate | reflexivity].
    - exists f. split; [|now rewrite Hnomatch].
      apply List.filter_In. split; [exact Hin|].
      simpl. rewrite orb_false_r. apply negb_true_iff.
      destruct (String.eqb_spec f ".DS_Store"); congruence. }
  rewrite Hwells. reflexivity.
Qed.

Lemma X20_stray_entry_aborts_witness :
  exists w' made,
    prepare_stitch_slurm_job
      (mk_env [] (1, 1)%nat (fun _ => []) (fun _ _ z => z) (fun p => p) (fun p => p)
              (fun _ => ∅) (fun _ => Some ["Row01_Well01"; "README.txt"]) (fun n => n))
      Demo.slurm Demo.w0
    = (Raise (AttributeError "'NoneType' object has no attribute 'group'"), w') /\
    Forall is_makedirs made /\
    trace w' = trace Demo.w0 ++ made
               ++ [EWrite (slurm_dir Demo.slurm +:+ "/processing.py")].
Proof.
  apply (X20_stray_entry_aborts _ Demo.slurm Demo.w0
           ["Row01_Well01"; "README.txt"] "README.txt").
  - reflexivity.
  - simpl. auto.
  - discriminate.
  - reflexivity.
Defined.

(* ===================================================================== *)
(** ** What the planes of the mosaic hold *)
(* ===================================================================== *)

Section Planes.

Variable E : env.
Variable mode : rescale_mode.
Variable range : range_spec.
Variable ids : list (Z * percentiles).
Variables n x y : nat.

Hypothesis planes_fit : forall c, Np.plane_has_shape x y (assemble_channel E c) = true.
Hypothesis per_tile : mode <> RescaleFullImage.

Lemma assemble_step_plain (mosaics : list plane) (i : nat) (c : Z) (w : world) :
  Np.has_shape n x y mosaics = true ->
  (i < n)%nat ->
  assemble_step E mode range ids x y mosaics (i, c) w
  = (Ok (<[i := Np.astype_uint16 (assemble_channel E c)]> mosaics),
     logged w [EAssemble c]).
Proof.
  intros Hshape Hi.
  destruct (setitem_plane_ok n x y mosaics i (assemble_channel E c) Hshape Hi
              (planes_fit c)) as [Hset _].
  unfold assemble_step. cbn [fst snd].
  erewrite bind_ok by reflexivity.
  rewrite Hset. erewrite bind_ok by reflexivity.
  destruct mode; try reflexivity. contradiction.
Qed.

Lemma assemble_loop_planes (channels : list Z) :
  forall (k : nat) (mosaics : list plane) (w : world),
    Np.has_shape n x y mosaics = true ->
    (k + length channels <= n)%nat ->
    exists mosaics',
      fold_M (assemble_step E mode range ids x y) (PyList.enumerate_from k channels)
             mosaics w
      = (Ok mosaics', logged w (map EAssemble channels)) /\
      Np.has_shape n x y mosaics' = true /\
      (forall i c, channels !! i = Some c ->
         mosaics' !! (k + i)%nat = Some (Np.astype_uint16 (assemble_channel E c))) /\
      (forall j, (j < k \/ k + length channels <= j)%nat -> mosaics' !! j = mosaics !! j).
Proof.
  induction channels as [|c channels IH]; intros k mosaics w Hshape Hk;
    cbn [PyList.enumerate_from fold_M].
  - exists mosaics. split; [|split; [exact Hshape|split]].
    + unfold ret, logged. simpl. rewrite app_nil_r. now destruct w.
    + intros i c Hi. discriminate Hi.
    + reflexivity.
  - simpl in Hk.
    rewrite (bind_ok _ _ _ _ _ (assemble_step_plain mosaics k c w Hshape ltac:(lia))).
    destruct (IH (S k) (<[k := Np.astype_uint16 (assemble_channel E c)]> mosaics)
                (logged w [EAssemble c])) as (m' & Hrun & Hshape' & Hput & Hkeep); [|lia|].
    { apply has_shape_insert; [exact Hshape|]. apply plane_shape_map, planes_fit. }
    exists m'. split; [|split; [exact Hshape'|split]].
    + rewrite Hrun. unfold logged. simpl. now rewrite <- app_assoc.
    + intros [|i] c' Hi; simpl in Hi.
      * injection Hi as <-. rewrite Nat.add_0_r, Hkeep by lia.
        apply list_lookup_insert_eq.
        rewrite (has_shape_length _ _ _ _ Hshape). lia.
      * rewrite <- (Hput i c' Hi). f_equal. lia.
    + intros j Hj. simpl in Hj. rewrite Hkeep by lia.
      apply list_lookup_insert_ne. lia.
Qed.

End Planes.

Lemma repeat_lookup {A} (v : A) (n j : nat) : (j < n)%nat -> repeat v n !! j = Some v.
Proof.
  revert j. induction n as [|n IH]; intros [|j] Hj; simpl; try lia; [reflexivity|].
  apply IH. lia.
Qed.

(** X21: without the whole-image rescale the array that
    [_assemble_mosaic] returns is the crop of an array whose plane [i] is
    the [uint16] assembly of the [i]-th selected channel, for every
    selected channel, and whose planes beyond the selected channels are
    all zero. *)
Theorem X21_plane_i_holds_selected_channel_i (E : env) (mode : rescale_mode)
    (range : range_spec) (ids : list (Z * percentiles)) (outdir : string)
    (channels mosaic_channels : list Z) (height width : nat) (c : crop_spec) (w : world) :
  (forall ch, Np.plane_has_shape height width (assemble_channel E ch) = true) ->
  mode <> RescaleFullImage ->
  (length channels <= length mosaic_channels)%nat ->
  exists mosaics w',
    _assemble_mosaic E mode range ids outdir channels mosaic_channels (height, width) c w
    = (Ok (crop_mosaic c height width mosaics), w') /\
    length mosaics = length mosaic_channels /\
    (forall i ch, channels !! i = Some ch ->
       mosaics !! i = Some (Np.astype_uint16 (assemble_channel E ch))) /\
    (forall j, (length channels <= j < length mosaic_channels)%nat ->
       mosaics !! j = Some (repeat (repeat 0%Z width) height)).
Proof.
  intros Hfit Hmode Hlen.
  unfold _assemble_mosaic. cbn [fst snd].
  erewrite bind_ok by reflexivity.
  edestruct (assemble_loop_planes E mode range ids (length mosaic_channels) height width
               Hfit Hmode channels 0 (Np.zeros (length mosaic_channels) height width))
    as (mosaics & Hloop & Hshape & Hput & Hkeep); [apply zeros_shape | simpl; lia |].
  unfold PyList.enumerate. erewrite bind_ok by exact Hloop.
  exists mosaics. eexists. split; [reflexivity|]. split; [|split].
  - exact (has_shape_length _ _ _ _ Hshape).
  - intros i ch Hi. exact (Hput i ch Hi).
  - intros j Hj. rewrite Hkeep by (simpl; lia).
    unfold Np.zeros. apply repeat_lookup. lia.
Qed.

Lemma X21_plane_i_holds_selected_channel_i_witness :
  exists mosaics w',
    _assemble_mosaic Demo.E RescaleOn (RangeTuple (1%Q, 99%Q)) [] "/out"
                     [1%Z] [0%Z; 1%Z] (45%nat, 30%nat) no_crop Demo.w0
    = (Ok (crop_mosaic no_crop 45 30 mosaics), w') /\
    length mosaics = length [0%Z; 1%Z] /\
    (forall i ch, [1%Z] !! i = Some ch ->
       mosaics !! i = Some (Np.astype_uint16 (assemble_channel Demo.E ch))) /\
    (forall j, (length [1%Z] <= j < length [0%Z; 1%Z])%nat ->
       mosaics !! j = Some (repeat (repeat 0%Z 30) 45)).
Proof.
  apply (X21_plane_i_holds_selected_channel_i Demo.E RescaleOn (RangeTuple (1%Q, 99%Q))
           [] "/out" [1%Z] [0%Z; 1%Z] 45 30 no_crop Demo.w0).
  - intros ch. vm_compute. reflexivity.
  - discriminate.
  - simpl. lia.
Defined.
